(** * py_web_miner.scraping: a shallow embedding

    The Python module [py_web_miner/scraping.py] defines an abstract
    [BaseScraper] with two subclasses, [RequestsScraper] (plain HTTP) and
    [SeleniumScraper] (headless browser), and the HTML post-processing
    they share ([format], [extract_text], [extract_links]).

    Python [str] values are embedded as [string]; a method that mutates
    [self] or touches the outside world is a function in a small
    state-and-exception monad. *)

From Stdlib Require Import Strings.String Strings.Ascii.
From Stdlib Require Import Lists.List.
From Stdlib Require Import Arith.PeanoNat Arith.Wf_nat.
From Stdlib Require Import ZArith.ZArith QArith.QArith.
From Stdlib Require Import Bool.Bool.
From Stdlib Require Import micromega.Lia.
Import ListNotations.

Local Open Scope nat_scope.
Local Open Scope list_scope.
Local Open Scope string_scope.

(** ** Python strings *)

Module PyStr.

(** The line feed, ["\n"] in the source. *)
Definition LF : ascii := "010"%char.

(** The double quote. *)
Definition QUOTE : ascii := "034"%char.

(** [nls n] is ["\n" * n]. *)
Fixpoint nls (n : nat) : string :=
  match n with
  | O => EmptyString
  | S k => String LF (nls k)
  end.

(** How many line feeds [s] begins with. *)
Fixpoint leading_newlines (s : string) : nat :=
  match s with
  | String c s' => if Ascii.eqb c LF then S (leading_newlines s') else 0
  | EmptyString => 0
  end.

(** [starts_with_lf s] holds when the first character of [s] is a line feed. *)
Definition starts_with_lf (s : string) : bool :=
  match s with
  | String c _ => Ascii.eqb c LF
  | EmptyString => false
  end.

(** Length of the match of the greedy quantifier [{lo,hi}] on a run of
    [n] characters ([hi = None] is the open quantifier [{lo,}]). *)
Definition greedy (hi : option nat) (n : nat) : nat :=
  match hi with
  | Some h => Nat.min n h
  | None => n
  end.

(** [re.sub(pattern="\n{lo,hi}", repl=repl, string=s)].

    The scan goes left to right.  At a position where at least [lo]
    line feeds follow, the greedy quantifier consumes as many of them
    as [hi] allows, [repl] is emitted and the scan resumes after the
    match; elsewhere the character is copied.  [skip] counts the
    characters of the current match that are still to be consumed. *)
Fixpoint re_sub_from (lo : nat) (hi : option nat) (repl : string)
         (skip : nat) (s : string) : string :=
  match s with
  | EmptyString => EmptyString
  | String c s' =>
      match skip with
      | S k => re_sub_from lo hi repl k s'
      | O =>
          let n := leading_newlines s in
          if (lo <=? n)%nat
          then repl ++ re_sub_from lo hi repl (pred (greedy hi n)) s'
          else String c (re_sub_from lo hi repl 0 s')
      end
  end.

Definition re_sub_newlines (lo : nat) (hi : option nat) (repl s : string) : string :=
  re_sub_from lo hi repl 0 s.

(** [s.startswith(p)] *)
Definition startswith (s p : string) : bool := String.prefix p s.

(** [needle in hay] *)
Fixpoint contains (needle hay : string) : bool :=
  String.prefix needle hay
  || match hay with
     | EmptyString => false
     | String _ hay' => contains needle hay'
     end.

(** [s.split(sep)] for a one-character separator: the pieces between
    the occurrences of [sep]; [cur] is the piece being read. *)
Fixpoint split_from (sep : ascii) (cur : string) (s : string) : list string :=
  match s with
  | EmptyString => [cur]
  | String c s' =>
      if Ascii.eqb c sep
      then cur :: split_from sep EmptyString s'
      else split_from sep (cur ++ String c EmptyString) s'
  end.

Definition split (s : string) (sep : ascii) : list string :=
  split_from sep EmptyString s.

(** Occurrences of a character, for stating what [split] returns. *)
Fixpoint count_char (c : ascii) (s : string) : nat :=
  match s with
  | EmptyString => 0
  | String d s' => (if Ascii.eqb d c then 1 else 0) + count_char c s'
  end.

(** Replace every maximal run of [k] line feeds by [f k] line feeds;
    the accumulator [k] is the length of the run read so far.  This is
    the reading of a collapse rule "runs of ... newlines become ...". *)
Fixpoint map_runs (f : nat -> nat) (k : nat) (s : string) : string :=
  match s with
  | EmptyString => nls (f k)
  | String c s' =>
      if Ascii.eqb c LF
      then map_runs f (S k) s'
      else nls (f k) ++ String c (map_runs f 0 s')
  end.

End PyStr.

(** ** Text clean-up: [BaseScraper._process_text] *)

Module Text.
Import PyStr.

Definition _process_text (extracted_text : string) : string :=
  let extracted_text := re_sub_newlines 5 None (nls 3) extracted_text in
  let extracted_text := re_sub_newlines 4 (Some 4) (nls 2) extracted_text in
  let extracted_text := re_sub_newlines 2 (Some 3) (nls 1) extracted_text in
  extracted_text.

(** What each of the three substitutions does to a run of [k] line feeds. *)
Definition rule1 (k : nat) : nat := if (5 <=? k)%nat then 3 else k.
Definition rule2 (k : nat) : nat := 2 * (k / 4) + k mod 4.
Definition rule3 (k : nat) : nat := (k + 2) / 3.

(** The rule the specification gives for a run of [k] line feeds:
    5 or more become 3, exactly 4 become 2, 2 or 3 become 1. *)
Definition spec_rule (k : nat) : nat :=
  if (5 <=? k)%nat then 3 else if (k =? 4)%nat then 2 else if (2 <=? k)%nat then 1 else k.

(** Every run of line feeds shrinks to a single one. *)
Definition squeeze (s : string) : string := map_runs (Nat.min 1) 0 s.

End Text.

(** ** Python control: exceptions and mutable state *)

Module Py.

(** The exceptions the module raises or lets through. *)
Inductive exn : Type :=
| AttributeError (msg : string)
| ValueError (msg : string)
| IndexError (msg : string)
| HTTPError (status_code : Z)
| ExternalError (msg : string).
(* [ExternalError]: whatever a collaborator raises on its own
   (connection failures of requests, WebDriverException of selenium). *)

Inductive result (A : Type) : Type :=
| Ok (a : A)
| Raise (e : exn).
Arguments Ok {A} a.
Arguments Raise {A} e.

(** A computation over a mutable state [S]: it returns or raises, and
    the state it leaves behind is kept in both cases. *)
Definition M (S A : Type) : Type := S -> result A * S.

Definition ret {S A} (a : A) : M S A := fun s => (Ok a, s).

Definition raise {S A} (e : exn) : M S A := fun s => (Raise e, s).

Definition bind {S A B} (c : M S A) (k : A -> M S B) : M S B :=
  fun s =>
    match c s with
    | (Ok a, s') => k a s'
    | (Raise e, s') => (Raise e, s')
    end.

Definition get {S} : M S S := fun s => (Ok s, s).

Definition put {S} (s : S) : M S unit := fun _ => (Ok tt, s).

Definition modify {S} (f : S -> S) : M S unit := fun s => (Ok tt, f s).

(** [if cond: body] for a statement. *)
Definition when {S} (cond : bool) (body : M S unit) : M S unit :=
  if cond then body else ret tt.

(** Truth value of an [Optional[str]]: [None] and [""] are false. *)
Definition truthy (o : option string) : bool :=
  match o with
  | Some s => negb (s =? "")
  | None => false
  end.

(** A Python [dict] with string keys, in insertion order. *)
Definition dict : Type := list (string * string).

Definition dict_get (d : dict) (key : string) : option string :=
  option_map snd (find (fun kv => fst kv =? key) d).

(** [d[key] = value] *)
Fixpoint dict_set (d : dict) (key value : string) : dict :=
  match d with
  | [] => [(key, value)]
  | (k, v) :: d' =>
      if k =? key then (k, value) :: d' else (k, v) :: dict_set d' key value
  end.

End Py.

Declare Scope py_scope.
Delimit Scope py_scope with py.
Notation "x <- c ;; k" := (Py.bind c (fun x => k))
  (at level 61, c at next level, right associativity) : py_scope.
Notation "c ;;; k" := (Py.bind c (fun _ => k))
  (at level 61, right associativity) : py_scope.

(** ** The [random] module *)

Module PyRandom.
Import Py.

(** The generator: [bits] and [uniform] are the values its [n]-th call
    draws (an integer for [_randbelow], a number of [[0, 1)] for
    [random()]), [pos] counts the calls made.  Weights and draws are
    rationals; rounding of floats is not modelled. *)
Record Rng : Type := {
  bits : nat -> nat;
  uniform : nat -> Q;
  pos : nat;
}.

Definition advance (g : Rng) : Rng :=
  {| bits := bits g; uniform := uniform g; pos := S (pos g) |}.

(** [_randbelow(n)], for [n > 0]: some integer below [n]. *)
Definition randbelow (n : nat) (g : Rng) : nat * Rng :=
  (bits g (pos g) mod n, advance g).

Definition random (g : Rng) : Q * Rng :=
  (uniform g (pos g), advance g).

(** [random.choice(seq)] *)
Definition choice (seq : list string) : M Rng string :=
  fun g =>
    match seq with
    | [] => (Raise (IndexError "Cannot choose from an empty sequence"), g)
    | _ :: _ =>
        let (i, g') := randbelow (List.length seq) g in
        match nth_error seq i with
        | Some x => (Ok x, g')
        | None => (Raise (IndexError "list index out of range"), g')
        end
    end.

(** [itertools.accumulate(weights)] *)
Fixpoint accumulate_from (acc : Q) (weights : list Q) : list Q :=
  match weights with
  | [] => []
  | w :: ws => (acc + w)%Q :: accumulate_from (acc + w)%Q ws
  end.

Definition accumulate (weights : list Q) : list Q :=
  match weights with
  | [] => []
  | w :: ws => w :: accumulate_from w ws
  end.

(** The loop of [bisect.bisect_right(a, x, lo, hi)]. *)
Fixpoint bisect_loop (fuel : nat) (a : list Q) (x : Q) (lo hi : nat) : nat :=
  match fuel with
  | O => lo
  | S fuel' =>
      if (lo <? hi)%nat then
        let mid := (lo + hi) / 2 in
        if negb (Qle_bool (nth mid a 0%Q) x)
        then bisect_loop fuel' a x lo mid
        else bisect_loop fuel' a x (mid + 1) hi
      else lo
  end.

(** Every turn of the loop shrinks [hi - lo], so [hi - lo] turns suffice. *)
Definition bisect (a : list Q) (x : Q) (lo hi : nat) : nat :=
  bisect_loop (hi - lo) a x lo hi.

(** [random.choices(population, weights=weights, k=1)[0]].  The
    weights are rationals, always finite: the check that the total of
    the weights is finite has no counterpart here. *)
Definition choices1 (population : list string) (weights : list Q) : M Rng string :=
  fun g =>
    let n := List.length population in
    let cum_weights := accumulate weights in
    if negb (List.length cum_weights =? n)%nat then
      (Raise (ValueError "The number of weights does not match the population"), g)
    else
      match List.last (map Some cum_weights) None with
      | None => (Raise (IndexError "list index out of range"), g)
      | Some total =>
          if Qle_bool total 0 then
            (Raise (ValueError "Total of weights must be greater than zero"), g)
          else
            let (r, g') := random g in
            let hi := n - 1 in
            match nth_error population (bisect cum_weights (r * total)%Q 0 hi) with
            | Some x => (Ok x, g')
            | None => (Raise (IndexError "list index out of range"), g')
            end
      end.

End PyRandom.

(** ** The parse tree of BeautifulSoup *)

Module Bs4.
Import Py.

(** A document is a list of nodes; a node is text or an element with
    its attributes and children.  Comments, declarations and
    processing instructions carry no text and no links and are left
    out of the tree. *)
#[warnings="-register-all"]
Inductive node : Type :=
| NavigableString (text : string)
| Tag (name : string) (attrs : dict) (contents : list node).

Definition soup : Type := list node.

(** Induction over a tree: the children of an element come with the
    property. *)
Section Induction.
Variable P : node -> Prop.
Hypothesis on_string : forall s, P (NavigableString s).
Hypothesis on_tag : forall name attrs cs, Forall P cs -> P (Tag name attrs cs).

Fixpoint node_tree_ind (n : node) : P n :=
  match n with
  | NavigableString s => on_string s
  | Tag name attrs cs =>
      on_tag name attrs cs
        ((fix children (l : list node) : Forall P l :=
            match l with
            | [] => Forall_nil P
            | c :: l' => Forall_cons c (node_tree_ind c) (children l')
            end) cs)
  end.
End Induction.

(** A node and everything below it, in document order. *)
Fixpoint self_and_descendants (n : node) : list node :=
  n :: match n with
       | NavigableString _ => []
       | Tag _ _ cs => flat_map self_and_descendants cs
       end.

Definition descendants (cs : list node) : list node :=
  flat_map self_and_descendants cs.

Definition is_tag (name : string) (n : node) : bool :=
  match n with
  | Tag nm _ _ => nm =? name
  | NavigableString _ => false
  end.

(** [tree.find_all(name)]: the elements called [name], in document order. *)
Definition find_all (name : string) (cs : list node) : list node :=
  filter (is_tag name) (descendants cs).

(** [tree.find(name)], which is also [tree.<name>]: the first of them, or [None]. *)
Definition find (name : string) (cs : list node) : option node :=
  hd_error (find_all name cs).

Definition contents (n : node) : list node :=
  match n with
  | Tag _ _ cs => cs
  | NavigableString _ => []
  end.

(** [tag.get(key)] *)
Definition get (n : node) (key : string) : option string :=
  match n with
  | Tag _ attrs _ => dict_get attrs key
  | NavigableString _ => None
  end.

(** The tree left by [for tag in t.select(name): tag.decompose()]:
    every element called [name] is gone together with what it holds. *)
Fixpoint decompose_all (name : string) (n : node) : list node :=
  match n with
  | NavigableString _ => [n]
  | Tag nm attrs cs =>
      if nm =? name then []
      else [Tag nm attrs (flat_map (decompose_all name) cs)]
  end.

Definition decompose_selected (name : string) (cs : list node) : list node :=
  flat_map (decompose_all name) cs.

(** [tag.get_text()]: the strings below the tag, joined.  The tree has
    one kind of string: the strings under [template], [rt] and [rp]
    elements, which [get_text] leaves out, are not told apart. *)
Fixpoint get_text (n : node) : string :=
  match n with
  | NavigableString s => s
  | Tag _ _ cs => String.concat "" (map get_text cs)
  end.

(** *** Characters *)

Definition is_upper (c : ascii) : bool :=
  let n := nat_of_ascii c in (65 <=? n)%nat && (n <=? 90)%nat.

Definition is_alpha (c : ascii) : bool :=
  let n := nat_of_ascii c in
  ((65 <=? n)%nat && (n <=? 90)%nat) || ((97 <=? n)%nat && (n <=? 122)%nat).

Definition lower_char (c : ascii) : ascii :=
  if is_upper c then ascii_of_nat (nat_of_ascii c + 32) else c.

(** [s.lower()], on ASCII letters. *)
Fixpoint lower (s : string) : string :=
  match s with
  | EmptyString => EmptyString
  | String c s' => String (lower_char c) (lower s')
  end.

(** The ASCII characters for which [str.isspace] holds. *)
Definition is_space (c : ascii) : bool :=
  let n := nat_of_ascii c in
  ((9 <=? n)%nat && (n <=? 13)%nat) || ((28 <=? n)%nat && (n <=? 32)%nat).

Fixpoint lstrip (s : string) : string :=
  match s with
  | EmptyString => EmptyString
  | String c s' => if is_space c then lstrip s' else s
  end.

Fixpoint rstrip (s : string) : string :=
  match s with
  | EmptyString => EmptyString
  | String c s' =>
      match rstrip s' with
      | EmptyString => if is_space c then EmptyString else String c EmptyString
      | r => String c r
      end
  end.

(** [s.strip()], on ASCII white space. *)
Definition strip (s : string) : string := rstrip (lstrip s).

(** *** Serialisation: [prettify] *)

Fixpoint spaces (n : nat) : string :=
  match n with
  | O => EmptyString
  | S k => String " "%char (spaces k)
  end.

Definition attr_string (kv : string * string) : string :=
  " " ++ fst kv ++ "=" ++ String PyStr.QUOTE (snd kv ++ String PyStr.QUOTE "").

(** The attributes in the order they are written in: sorted by name. *)
Fixpoint insert_attr (kv : string * string) (sorted : dict) : dict :=
  match sorted with
  | [] => [kv]
  | x :: rest =>
      if String.leb (fst kv) (fst x) then kv :: sorted else x :: insert_attr kv rest
  end.

Definition sorted_attrs (attrs : dict) : dict :=
  fold_right insert_attr [] attrs.

(** Elements that never have content ([br], [img], ...). *)
Definition empty_element_tags : list string :=
  ["area"; "base"; "br"; "col"; "embed"; "hr"; "img"; "input"; "keygen";
   "link"; "menuitem"; "meta"; "param"; "source"; "track"; "wbr";
   "basefont"; "bgsound"; "command"; "frame"; "image"; "isindex";
   "nextid"; "spacer"].

Definition is_empty_element (name : string) : bool :=
  existsb (String.eqb name) empty_element_tags.

(** One piece per line, each line ended by a line feed and indented by
    one space per level of nesting; the attributes of a tag are
    written sorted by name; strings are stripped and dropped
    when nothing is left.  Markup characters in strings and the
    verbatim content of [pre] and [textarea] are not treated apart. *)
Fixpoint decode (indent : nat) (n : node) : string :=
  match n with
  | NavigableString s =>
      let t := strip s in
      if t =? "" then "" else spaces indent ++ t ++ String PyStr.LF ""
  | Tag name attrs cs =>
      let opening :=
        "<" ++ name ++ String.concat "" (map attr_string (sorted_attrs attrs)) in
      if is_empty_element name
      then spaces indent ++ opening ++ "/>" ++ String PyStr.LF ""
      else spaces indent ++ opening ++ ">" ++ String PyStr.LF ""
           ++ String.concat "" (map (decode (S indent)) cs)
           ++ spaces indent ++ "</" ++ name ++ ">" ++ String PyStr.LF ""
  end.

Definition prettify (tree : soup) : string :=
  String.concat "" (map (decode 0) tree).

End Bs4.

(** ** A reference HTML parser

    [BeautifulSoup(markup, features)] delegates to the parser named by
    [features]; the scraper takes it as a collaborator.  [HtmlParser] is
    an executable stand-in for ["html.parser"] on plain markup: start
    tags with attributes, end tags and text.  Comments, declarations,
    character references and markup inside [script] or [style] are
    outside of what it reads. *)

Module HtmlParser.
Import Py Bs4.

Inductive token : Type :=
| TStart (name : string) (attrs : dict) (self_closing : bool)
| TEnd (name : string)
| TChar (c : ascii).

Inductive lex_state : Type :=
| InText
| TagOpen
| EndName (name : string)
| EndSkip (name : string)
| StartName (name : string)
| BeforeAttr (name : string) (attrs : dict)
| AttrName (name : string) (attrs : dict) (key : string)
| BeforeValue (name : string) (attrs : dict) (key : string)
| Value (name : string) (attrs : dict) (key : string) (quote : option ascii) (value : string)
| SelfClose (name : string) (attrs : dict).

Definition snoc (s : string) (c : ascii) : string := s ++ String c "".

Definition is_quote (c : ascii) : bool :=
  Ascii.eqb c PyStr.QUOTE || Ascii.eqb c "'"%char.

(** One character of input: the tokens completed by it and the next state. *)
Definition lex_step (st : lex_state) (c : ascii) : list token * lex_state :=
  let gt := Ascii.eqb c ">"%char in
  let slash := Ascii.eqb c "/"%char in
  match st with
  | InText =>
      if Ascii.eqb c "<"%char then ([], TagOpen) else ([TChar c], InText)
  | TagOpen =>
      if slash then ([], EndName "")
      else if is_alpha c then ([], StartName (String (lower_char c) ""))
      else if Ascii.eqb c "<"%char then ([TChar "<"%char], TagOpen)
      else ([TChar "<"%char; TChar c], InText)
  | EndName name =>
      if gt then ([TEnd name], InText)
      else if is_space c then ([], EndSkip name)
      else ([], EndName (snoc name (lower_char c)))
  | EndSkip name =>
      if gt then ([TEnd name], InText) else ([], EndSkip name)
  | StartName name =>
      if gt then ([TStart name [] false], InText)
      else if slash then ([], SelfClose name [])
      else if is_space c then ([], BeforeAttr name [])
      else ([], StartName (snoc name (lower_char c)))
  | BeforeAttr name attrs =>
      if gt then ([TStart name attrs false], InText)
      else if slash then ([], SelfClose name attrs)
      else if is_space c then ([], BeforeAttr name attrs)
      else ([], AttrName name attrs (String (lower_char c) ""))
  | AttrName name attrs key =>
      if Ascii.eqb c "="%char then ([], BeforeValue name attrs key)
      else if gt then ([TStart name (dict_set attrs key "") false], InText)
      else if slash then ([], SelfClose name (dict_set attrs key ""))
      else if is_space c then ([], BeforeAttr name (dict_set attrs key ""))
      else ([], AttrName name attrs (snoc key (lower_char c)))
  | BeforeValue name attrs key =>
      if is_quote c then ([], Value name attrs key (Some c) "")
      else if gt then ([TStart name (dict_set attrs key "") false], InText)
      else if is_space c then ([], BeforeValue name attrs key)
      else ([], Value name attrs key None (String c ""))
  | Value name attrs key (Some q) value =>
      if Ascii.eqb c q then ([], BeforeAttr name (dict_set attrs key value))
      else ([], Value name attrs key (Some q) (snoc value c))
  | Value name attrs key None value =>
      if gt then ([TStart name (dict_set attrs key value) false], InText)
      else if is_space c then ([], BeforeAttr name (dict_set attrs key value))
      else ([], Value name attrs key None (snoc value c))
  | SelfClose name attrs =>
      if gt then ([TStart name attrs true], InText)
      else if is_space c then ([], SelfClose name attrs)
      else ([], AttrName name attrs (String (lower_char c) ""))
  end.

(** [raw] is the text of the tag being read, should it stay unfinished. *)
Fixpoint lex (st : lex_state) (raw : string) (s : string) : list token :=
  match s with
  | EmptyString => map TChar (list_ascii_of_string raw)
  | String c s' =>
      let (toks, st') := lex_step st c in
      let raw' := match st' with InText => "" | _ => snoc raw c end in
      (toks ++ lex st' raw' s')%list
  end.

(** An element under construction; its children are kept in reverse. *)
Record frame : Type := {
  f_name : string;
  f_attrs : dict;
  f_rev : list node;
}.

Definition add_child (f : frame) (n : node) : frame :=
  {| f_name := f_name f; f_attrs := f_attrs f; f_rev := n :: f_rev f |}.

Definition close (f : frame) : node :=
  Tag (f_name f) (f_attrs f) (rev (f_rev f)).

(** The builder: the innermost open element, the ones around it (the
    document last) and the text read since the last tag. *)
Record builder : Type := {
  top : frame;
  below : list frame;
  current_data : string;
}.

Definition ascii_space (c : ascii) : bool :=
  existsb (Ascii.eqb c) [" "%char; "010"%char; "009"%char; "012"%char; "013"%char].

Definition preserve_whitespace_tags : list string := ["pre"; "textarea"].

Definition open_names (b : builder) : list string :=
  map f_name (removelast (top b :: below b)).

(** [endData]: the pending text becomes a string node; text made of
    white space only shrinks to one character outside [pre] and
    [textarea]. *)
Definition end_data (b : builder) : builder :=
  match current_data b with
  | EmptyString => b
  | data =>
      let blank := forallb ascii_space (list_ascii_of_string data) in
      let kept := existsb (fun n => existsb (String.eqb n) preserve_whitespace_tags)
                          (map f_name (top b :: below b)) in
      let data' :=
        if blank && negb kept
        then (if existsb (Ascii.eqb PyStr.LF) (list_ascii_of_string data)
              then String PyStr.LF "" else " ")
        else data in
      {| top := add_child (top b) (NavigableString data');
         below := below b; current_data := "" |}
  end.

(** [_popToTag(name)]: close the open elements up to and including
    the innermost one called [name]; the document itself stays. *)
Fixpoint pop_to (name : string) (t : frame) (bs : list frame) : frame * list frame :=
  match bs with
  | [] => (t, [])
  | parent :: rest =>
      let parent' := add_child parent (close t) in
      if f_name t =? name then (parent', rest) else pop_to name parent' rest
  end.

Definition handle (b : builder) (tok : token) : builder :=
  match tok with
  | TChar c =>
      {| top := top b; below := below b; current_data := snoc (current_data b) c |}
  | TStart name attrs self_closing =>
      let b := end_data b in
      if self_closing || is_empty_element name
      then {| top := add_child (top b) (Tag name attrs []);
              below := below b; current_data := "" |}
      else {| top := {| f_name := name; f_attrs := attrs; f_rev := [] |};
              below := top b :: below b; current_data := "" |}
  | TEnd name =>
      let b := end_data b in
      if existsb (String.eqb name) (open_names b)
      then let (t, bs) := pop_to name (top b) (below b) in
           {| top := t; below := bs; current_data := "" |}
      else b
  end.

(** At the end of input every open element is closed. *)
Fixpoint close_all (t : frame) (bs : list frame) : list node :=
  match bs with
  | [] => rev (f_rev t)
  | parent :: rest => close_all (add_child parent (close t)) rest
  end.

Definition parse (markup : string) : soup :=
  let start := {| top := {| f_name := "[document]"; f_attrs := []; f_rev := [] |};
                  below := []; current_data := "" |} in
  let b := end_data (fold_left handle (lex InText "" markup) start) in
  close_all (top b) (below b).

End HtmlParser.

(** ** The [requests] library *)

Module Requests.
Import Py.

(** A [requests.Session], as far as the scraper configures it. *)
Record Session : Type := {
  proxies : dict;
  headers : dict;
  cookies : dict;
}.

Record Response : Type := {
  status_code : Z;
  text : string;
}.

(** [requests.codes.ok] *)
Definition codes_ok : Z := 200.

(** [resp.raise_for_status()]: raises [HTTPError] for a client error
    (4xx) or a server error (5xx) and returns [None] otherwise. *)
Definition raise_for_status (resp : Response) : result unit :=
  if ((400 <=? status_code resp) && (status_code resp <? 600))%Z
  then Raise (HTTPError (status_code resp))
  else Ok tt.

Definition set_proxies (s : Session) (d : dict) : Session :=
  {| proxies := d; headers := headers s; cookies := cookies s |}.

Definition set_headers (s : Session) (d : dict) : Session :=
  {| proxies := proxies s; headers := d; cookies := cookies s |}.

(** [session.cookies.clear()] *)
Definition cookies_clear (s : Session) : Session :=
  {| proxies := proxies s; headers := headers s; cookies := [] |}.

End Requests.

(** ** Collaborators

    What the module is given from outside: the table of user agents read
    at import time, the HTML parser behind [BeautifulSoup], the network
    behind a [requests] session and the browser behind a selenium
    driver.  A call that fails raises and leaves the handle as it was. *)

Class Externals : Type := {
  MOST_COMMON_USER_AGENTS_STRINGS : list string;
  MOST_COMMON_USER_AGENTS_WEIGHTS : list Q;
  (** [BeautifulSoup(markup=..., features=...)] *)
  BeautifulSoup : string -> string -> Bs4.soup;
  (** [requests.session()] *)
  requests_session : Requests.Session;
  (** [session.get(url=url, **kwargs)] *)
  session_get :
    Requests.Session -> string -> Py.dict -> Py.result Requests.Response * Requests.Session;
  (** [session.close()] *)
  session_close : Requests.Session -> Py.result unit;
  WebDriver : Type;
  (** [webdriver.Chrome(options=...)] or [webdriver.Firefox(options=...)],
      by the name of the browser, with the arguments added to the options. *)
  webdriver_new : string -> list string -> Py.result WebDriver;
  delete_all_cookies : WebDriver -> Py.result WebDriver;
  (** [driver.get(url=url)] returns once the page is loaded. *)
  driver_get : WebDriver -> string -> Py.result WebDriver;
  page_source : WebDriver -> Py.result string;
  driver_quit : WebDriver -> Py.result unit;
}.

(** ** The world a scraper acts on *)

Module World.
Import Py.

Inductive event : Type :=
| Logged (msg : string)          (* [logger.info(msg)] *)
| Slept (seconds : Q).           (* [time.sleep(seconds)] *)

(** The state of the random generator and what happened so far, latest first. *)
Record t : Type := {
  rng : PyRandom.Rng;
  trace : list event;
}.

Definition emit (e : event) (w : t) : t :=
  {| rng := rng w; trace := e :: trace w |}.

Definition with_rng (w : t) (g : PyRandom.Rng) : t :=
  {| rng := g; trace := trace w |}.

End World.

(** ** [py_web_miner.scraping] *)

Module Scraping.
Import Py PyStr Requests.
Local Open Scope py_scope.

(** [MOST_COMMON_SCREEN_RESOLUTIONS] *)
Definition MOST_COMMON_SCREEN_RESOLUTIONS : list string :=
  ["1920,1080"; "1366,768"; "1536,864"; "1440,900"; "1600,900"].

(** A scraper object: the attributes [BaseScraper.__init__] sets, the
    handle [web_driver] of type [D] and the attributes [X] a subclass adds. *)
Record Scraper (D X : Type) : Type := {
  user_agent : option string;
  screen_resolution : option string;
  random_user_agent_flag : bool;
  random_screen_resolution_flag : bool;
  bs4_parser : string;
  proxy : option string;
  web_driver : option D;
  sub : X;
}.
Arguments user_agent {D X} _.
Arguments screen_resolution {D X} _.
Arguments random_user_agent_flag {D X} _.
Arguments random_screen_resolution_flag {D X} _.
Arguments bs4_parser {D X} _.
Arguments proxy {D X} _.
Arguments web_driver {D X} _.
Arguments sub {D X} _.

Section Attributes.
Context {D X : Type}.

Definition set_user_agent (v : option string) (s : Scraper D X) : Scraper D X :=
  {| user_agent := v; screen_resolution := screen_resolution s;
     random_user_agent_flag := random_user_agent_flag s;
     random_screen_resolution_flag := random_screen_resolution_flag s;
     bs4_parser := bs4_parser s; proxy := proxy s;
     web_driver := web_driver s; sub := sub s |}.

Definition set_screen_resolution (v : option string) (s : Scraper D X) : Scraper D X :=
  {| user_agent := user_agent s; screen_resolution := v;
     random_user_agent_flag := random_user_agent_flag s;
     random_screen_resolution_flag := random_screen_resolution_flag s;
     bs4_parser := bs4_parser s; proxy := proxy s;
     web_driver := web_driver s; sub := sub s |}.

Definition set_proxy (v : option string) (s : Scraper D X) : Scraper D X :=
  {| user_agent := user_agent s; screen_resolution := screen_resolution s;
     random_user_agent_flag := random_user_agent_flag s;
     random_screen_resolution_flag := random_screen_resolution_flag s;
     bs4_parser := bs4_parser s; proxy := v;
     web_driver := web_driver s; sub := sub s |}.

Definition set_web_driver (v : option D) (s : Scraper D X) : Scraper D X :=
  {| user_agent := user_agent s; screen_resolution := screen_resolution s;
     random_user_agent_flag := random_user_agent_flag s;
     random_screen_resolution_flag := random_screen_resolution_flag s;
     bs4_parser := bs4_parser s; proxy := proxy s;
     web_driver := v; sub := sub s |}.

Definition set_sub {Y : Type} (v : Y) (s : Scraper D X) : Scraper D Y :=
  {| user_agent := user_agent s; screen_resolution := screen_resolution s;
     random_user_agent_flag := random_user_agent_flag s;
     random_screen_resolution_flag := random_screen_resolution_flag s;
     bs4_parser := bs4_parser s; proxy := proxy s;
     web_driver := web_driver s; sub := v |}.
End Attributes.

(** The message of the error raised on a scraper that is not started. *)
Definition not_started : string :=
  "Field 'web_driver' is None! " ++ String LF
  "You must execute the 'start()' method after the initialization of your 'BaseScraper' object!".

(** A method runs on [self] and the world. *)
Definition Method (D X A : Type) : Type := M (Scraper D X * World.t) A.

Section Methods.
Context {E : Externals} {D X : Type}.

Definition self : Method D X (Scraper D X) :=
  fun st => (Ok (fst st), st).

Definition assign (f : Scraper D X -> Scraper D X) : Method D X unit :=
  fun st => (Ok tt, (f (fst st), snd st)).

(** [logger.info(msg)] *)
Definition logger_info (msg : string) : Method D X unit :=
  fun st => (Ok tt, (fst st, World.emit (World.Logged msg) (snd st))).

(** [time.sleep(seconds)] refuses a negative length. *)
Definition time_sleep (seconds : Q) : Method D X unit :=
  fun st =>
    if Qle_bool 0 seconds
    then (Ok tt, (fst st, World.emit (World.Slept seconds) (snd st)))
    else (Raise (ValueError "sleep length must be non-negative"), st).

(** A call of the [random] module. *)
Definition with_random {A} (c : M PyRandom.Rng A) : Method D X A :=
  fun st =>
    let (r, g) := c (World.rng (snd st)) in
    (r, (fst st, World.with_rng (snd st) g)).

(** The outcome of a call to a collaborator. *)
Definition outcome {A} (r : result A) : Method D X A :=
  fun st => (r, st).

(** [self.web_driver], about to be used: on [None] any attribute
    access raises. *)
Definition the_web_driver : Method D X D :=
  s <- self ;;
  match web_driver s with
  | Some d => ret d
  | None => raise (AttributeError "'NoneType' object has no attribute")
  end.

(** [check_web_driver_decorator(method)] *)
Definition check_web_driver_decorator {A} (method : Method D X A) : Method D X A :=
  fun st =>
    match web_driver (fst st) with
    | None => (Raise (AttributeError not_started), st)
    | Some _ => method st
    end.

Definition refresh_user_agent : Method D X unit :=
  ua <- with_random (PyRandom.choices1 MOST_COMMON_USER_AGENTS_STRINGS
                                       MOST_COMMON_USER_AGENTS_WEIGHTS) ;;
  assign (set_user_agent (Some ua)) ;;;
  logger_info ("current user agent: " ++ ua).

Definition refresh_screen_resolution : Method D X unit :=
  sr <- with_random (PyRandom.choice MOST_COMMON_SCREEN_RESOLUTIONS) ;;
  assign (set_screen_resolution (Some sr)) ;;;
  logger_info ("current screen resolution: " ++ sr).

Definition format (s : Scraper D X) (html_body : string) : string :=
  Bs4.prettify (BeautifulSoup html_body (bs4_parser s)).

Definition extract_text (s : Scraper D X) (html_body : string) : string :=
  let tree := BeautifulSoup html_body (bs4_parser s) in
  match Bs4.find "body" tree with
  | None => ""
  | Some body =>
      let kept := Bs4.decompose_selected "script" (Bs4.contents body) in
      let kept := Bs4.decompose_selected "style" kept in
      Text._process_text (String.concat "" (map Bs4.get_text kept))
  end.

Definition extract_links (s : Scraper D X) (html_body : string) : list string :=
  let tree := BeautifulSoup html_body (bs4_parser s) in
  fold_left
    (fun result tag =>
       match Bs4.get tag "href" with
       | Some link =>
           if negb (link =? "") && startswith link "http"
           then (result ++ [link])%list
           else result
       | None => result
       end)
    (Bs4.find_all "a" tree) [].
End Methods.

(** The arguments of [BaseScraper.__init__], with their defaults. *)
Record init_args : Type := {
  arg_user_agent : option string;
  arg_screen_resolution : option string;
  arg_random_user_agent_flag : bool;
  arg_random_screen_resolution_flag : bool;
  arg_bs4_parser : string;
  arg_proxy : option string;
}.

Definition default_args : init_args :=
  {| arg_user_agent := None;
     arg_screen_resolution := None;
     arg_random_user_agent_flag := true;
     arg_random_screen_resolution_flag := true;
     arg_bs4_parser := "html.parser";
     arg_proxy := None |}.

Definition with_proxy (v : option string) (a : init_args) : init_args :=
  {| arg_user_agent := arg_user_agent a;
     arg_screen_resolution := arg_screen_resolution a;
     arg_random_user_agent_flag := arg_random_user_agent_flag a;
     arg_random_screen_resolution_flag := arg_random_screen_resolution_flag a;
     arg_bs4_parser := arg_bs4_parser a;
     arg_proxy := v |}.

Definition with_identity (ua sr : option string) (a : init_args) : init_args :=
  {| arg_user_agent := ua;
     arg_screen_resolution := sr;
     arg_random_user_agent_flag := arg_random_user_agent_flag a;
     arg_random_screen_resolution_flag := arg_random_screen_resolution_flag a;
     arg_bs4_parser := arg_bs4_parser a;
     arg_proxy := arg_proxy a |}.

Definition with_flags (ua sr : bool) (a : init_args) : init_args :=
  {| arg_user_agent := arg_user_agent a;
     arg_screen_resolution := arg_screen_resolution a;
     arg_random_user_agent_flag := ua;
     arg_random_screen_resolution_flag := sr;
     arg_bs4_parser := arg_bs4_parser a;
     arg_proxy := arg_proxy a |}.

(** The message of the error raised for a proxy that is not [host:port]. *)
Definition invalid_proxy_message : string :=
  "Invalid Proxy! Accepted format: 'host:port'".

(** [proxy and len(proxy.split(":")) != 2] *)
Definition invalid_proxy (proxy : option string) : bool :=
  match proxy with
  | Some p => negb (p =? "") && negb (List.length (split p ":"%char) =? 2)%nat
  | None => false
  end.

(** A constructor returns the object it built, or raises. *)
Definition construct {D X} (self0 : Scraper D X) (body : Method D X unit)
  : M World.t (Scraper D X) :=
  fun w =>
    match body (self0, w) with
    | (Ok _, (s, w')) => (Ok s, w')
    | (Raise e, (_, w')) => (Raise e, w')
    end.

Module BaseScraper.
Section Init.
Context {E : Externals} {D : Type}.

Definition __init__ (a : init_args) : M World.t (Scraper D unit) :=
  construct
    {| user_agent := arg_user_agent a;
       screen_resolution := arg_screen_resolution a;
       random_user_agent_flag := arg_random_user_agent_flag a;
       random_screen_resolution_flag := arg_random_screen_resolution_flag a;
       bs4_parser := arg_bs4_parser a;
       proxy := None;
       web_driver := None;
       sub := tt |}
    (if invalid_proxy (arg_proxy a)
     then raise (ValueError invalid_proxy_message)
     else
       assign (set_proxy (arg_proxy a)) ;;;
       s <- self ;;
       when (random_user_agent_flag s) refresh_user_agent ;;;
       s <- self ;;
       when (random_screen_resolution_flag s) refresh_screen_resolution ;;;
       assign (set_web_driver None)).
End Init.
End BaseScraper.

Module RequestsScraper.
Section Class.
Context {E : Externals}.

Definition t : Type := Scraper Session unit.

Definition __init__ (a : init_args) : M World.t t :=
  BaseScraper.__init__ a.

Definition start : Method Session unit unit :=
  assign (set_web_driver (Some requests_session)) ;;;
  s <- self ;;
  when (truthy (proxy s))
       (d <- the_web_driver ;;
        let p := match proxy s with Some p => p | None => "" end in
        let d := set_proxies d (dict_set (dict_set [] "http" ("http://" ++ p))
                                         "https" ("https://" ++ p)) in
        assign (set_web_driver (Some d))) ;;;
  when (truthy (user_agent s))
       (d <- the_web_driver ;;
        let ua := match user_agent s with Some ua => ua | None => "" end in
        let d := set_headers d (dict_set [] "User-Agent" ua) in
        assign (set_web_driver (Some d))).

Definition quit : Method Session unit unit :=
  check_web_driver_decorator
    (d <- the_web_driver ;;
     assign (set_web_driver (Some (cookies_clear d))) ;;;
     outcome (session_close (cookies_clear d)) ;;;
     assign (set_web_driver None)).

(** The value returned is [Some html] for a string and [None] for
    Python's [None], which is what falling off the end of the
    function returns. *)
Definition retrieve_html (url : string) (wait_seconds : Q)
           (delete_cookies_flag : bool) (kwargs : dict)
  : Method Session unit (option string) :=
  check_web_driver_decorator
    (when delete_cookies_flag
          (d <- the_web_driver ;;
           assign (set_web_driver (Some (cookies_clear d)))) ;;;
     time_sleep wait_seconds ;;;
     d <- the_web_driver ;;
     let (r, d') := session_get d url kwargs in
     assign (set_web_driver (Some d')) ;;;
     resp <- outcome r ;;
     if (status_code resp =? codes_ok)%Z then
       let cont := text resp in
       let cont := if cont =? "" then "" else cont in
       if negb (contains "<html>" cont) && negb (contains "<body" cont)
       then ret (Some ("<html>" ++ String LF "  <body>" ++ String LF cont
                        ++ String LF "  </body>" ++ String LF "</html>"))
       else ret (Some cont)
     else
       outcome (raise_for_status resp) ;;;
       ret None).
End Class.
End RequestsScraper.

Module SeleniumScraper.

(** The attributes the subclass adds; [browser] also stands for the
    two classes chosen by it. *)
Record fields : Type := {
  options : list string;
  browser : string;
}.

Definition default_options : list string :=
  ["--headless";
   "--incognito";
   "--no-sandbox";
   "--disable-dev-shm-usage";
   "--disable-extensions";
   "--disable-popup-blocking";
   "--disable-bundled-ppapi-flash";
   "--disable-plugins-discovery";
   "--disable-internal-flash";
   "--disable-client-side-phishing-detection";
   "--disable-component-extensions-with-background-pages";
   "--disable-default-apps";
   "--disable-extensions";
   "--disable-features=InterestFeedContentSuggestions";
   "--disable-features=Translate";
   "--hide-scrollbars";
   "--mute-audio";
   "--no-default-browser-check";
   "--no-first-run";
   "--ash-no-nudges";
   "--disable-search-engine-choice-screen"].

Section Class.
Context {E : Externals}.

Definition t : Type := Scraper WebDriver fields.

Definition option_if (o : option string) (flag : string) : list string :=
  match o with
  | Some v => if v =? "" then [] else [flag ++ v]
  | None => []
  end.

Definition __init__ (a : init_args) (browser_name : string)
           (opts : list string) : M World.t t :=
  base <- BaseScraper.__init__ a ;;
  let opts := (opts
               ++ option_if (screen_resolution base) "--window-size="
               ++ option_if (user_agent base) "--user-agent="
               ++ option_if (proxy base) "--proxy-server=")%list in
  let b := Bs4.strip (Bs4.lower browser_name) in
  if (b =? "chrome") || (b =? "firefox")
  then ret (set_sub {| options := opts; browser := b |} base)
  else raise (ValueError ("Invalid browser: '" ++ b ++ "'! " ++ String LF
                          "Valid browsers values are: 'chrome' or 'firefox'!")).

Definition start : Method WebDriver fields unit :=
  s <- self ;;
  d <- outcome (webdriver_new (browser (sub s)) (options (sub s))) ;;
  assign (set_web_driver (Some d)).

Definition quit : Method WebDriver fields unit :=
  check_web_driver_decorator
    (d <- the_web_driver ;;
     d <- outcome (delete_all_cookies d) ;;
     assign (set_web_driver (Some d)) ;;;
     outcome (driver_quit d) ;;;
     assign (set_web_driver None)).

Definition retrieve_html (url : string) (wait_seconds : Q)
           (delete_cookies_flag : bool) (kwargs : dict)
  : Method WebDriver fields string :=
  check_web_driver_decorator
    (time_sleep wait_seconds ;;;
     when delete_cookies_flag
          (d <- the_web_driver ;;
           d <- outcome (delete_all_cookies d) ;;
           assign (set_web_driver (Some d))) ;;;
     d <- the_web_driver ;;
     d <- outcome (driver_get d url) ;;
     assign (set_web_driver (Some d)) ;;;
     src <- outcome (page_source d) ;;
     s <- self ;;
     ret (format s src)).
End Class.
End SeleniumScraper.

End Scraping.

(** ** The vocabulary of the specification *)

Module Spec.
Import Py Bs4.

(** [needle] occurs somewhere in [hay]. *)
Definition Substring (needle hay : string) : Prop :=
  exists before after, hay = before ++ needle ++ after.

(** The document has an element called [name]. *)
Definition HasElement (name : string) (tree : soup) : Prop :=
  exists n, In n (descendants tree) /\ is_tag name n = true.

(** The [href] values of the anchors met when reading the document
    from its beginning to its end. *)
Fixpoint anchor_hrefs (n : node) : list string :=
  match n with
  | NavigableString _ => []
  | Tag name attrs cs =>
      ((if name =? "a"
        then match dict_get attrs "href" with Some l => [l] | None => [] end
        else [])
       ++ flat_map anchor_hrefs cs)%list
  end.

(** "Collects the href attribute of every anchor element, keeps only
    values beginning with http, preserves document order, does not
    deduplicate." *)
Definition links (tree : soup) : list string :=
  filter (String.prefix "http") (flat_map anchor_hrefs tree).

(** What one anchor adds to the result of [extract_links]. *)
Definition kept_link (tag : node) : list string :=
  match get tag "href" with
  | Some link =>
      if negb (link =? "") && PyStr.startswith link "http" then [link] else []
  | None => []
  end.

(** The envelope put around a body that does not look like HTML. *)
Definition envelope (body : string) : string :=
  "<html>" ++ String PyStr.LF "  <body>" ++ String PyStr.LF body
  ++ String PyStr.LF "  </body>" ++ String PyStr.LF "</html>".

(** The catalog of user agents can be drawn from: one weight per
    entry, at least one entry, and the weights sum to [total > 0]. *)
Definition catalog_ok (population : list string) (weights : list Q) (total : Q) : Prop :=
  List.length weights = List.length population
  /\ List.last (map Some (PyRandom.accumulate weights)) None = Some total
  /\ Qle_bool total 0 = false.

(** The identity of a scraper built from the arguments [a] in the
    world [w].  A field whose flag is set holds what the generator
    drew for it: the user agent is the draw of [random.choices] on the
    catalog in the state [w] has the generator in, the screen
    resolution is the draw of [random.choice] on the table in the
    state [g] the generator is in after the user agent was settled.
    A field whose flag is not set is the argument. *)
Definition identity_after {E : Externals} (a : Scraping.init_args) (w : World.t)
           (ua sr : option string) : Prop :=
  exists g : PyRandom.Rng,
    (Scraping.arg_random_user_agent_flag a = true ->
     exists v,
       PyRandom.choices1 MOST_COMMON_USER_AGENTS_STRINGS
                         MOST_COMMON_USER_AGENTS_WEIGHTS (World.rng w) = (Ok v, g)
       /\ In v MOST_COMMON_USER_AGENTS_STRINGS
       /\ ua = Some v)
    /\ (Scraping.arg_random_user_agent_flag a = false ->
        g = World.rng w /\ ua = Scraping.arg_user_agent a)
    /\ (Scraping.arg_random_screen_resolution_flag a = true ->
        exists v g',
          PyRandom.choice Scraping.MOST_COMMON_SCREEN_RESOLUTIONS g = (Ok v, g')
          /\ In v Scraping.MOST_COMMON_SCREEN_RESOLUTIONS
          /\ sr = Some v)
    /\ (Scraping.arg_random_screen_resolution_flag a = false ->
        sr = Scraping.arg_screen_resolution a).

End Spec.

(** ** A small world to run the scrapers in

    Three user agents, the reference parser, a web of four pages and a
    browser that shows the page it was sent to. *)

Module Reference.
Import Py Requests.

Definition user_agents : list string :=
  ["Mozilla/5.0 (X11; Linux x86_64)";
   "Mozilla/5.0 (Windows NT 10.0; Win64; x64)";
   "Mozilla/5.0 (Macintosh; Intel Mac OS X 10_15_7)"].

Definition weights : list Q := [(1 # 2)%Q; (3 # 10)%Q; (1 # 5)%Q].

Definition site : string := "http://site.test/".

(** What the server answers. *)
Definition serve (url : string) : Response :=
  if url =? site then
    {| status_code := 200; text := "<html><body><p>Hi</p></body></html>" |}
  else if url =? site ++ "plain" then
    {| status_code := 200; text := "plain words" |}
  else if url =? site ++ "empty" then
    {| status_code := 204; text := "" |}
  else
    {| status_code := 404; text := "not found" |}.

(** What a browser shows once the page is loaded. *)
Definition render (url : string) : string :=
  if url =? site then "<html><head></head><body><p>Hi</p></body></html>"
  else "<html><head></head><body>" ++ text (serve url) ++ "</body></html>".

Record Browser : Type := {
  name : string;
  arguments : list string;
  shown : string;
  jar : dict;
}.

Definition externals : Externals :=
  {| MOST_COMMON_USER_AGENTS_STRINGS := user_agents;
     MOST_COMMON_USER_AGENTS_WEIGHTS := weights;
     BeautifulSoup := fun markup _ => HtmlParser.parse markup;
     requests_session :=
       {| proxies := [];
          headers := [("User-Agent", "python-requests"); ("Accept", "*/*")];
          cookies := [] |};
     session_get := fun s url _ => (Ok (serve url), s);
     session_close := fun _ => Ok tt;
     WebDriver := Browser;
     webdriver_new := fun b opts =>
       Ok {| name := b; arguments := opts;
             shown := "<html><head></head><body></body></html>"; jar := [] |};
     delete_all_cookies := fun d =>
       Ok {| name := name d; arguments := arguments d; shown := shown d; jar := [] |};
     driver_get := fun d url =>
       Ok {| name := name d; arguments := arguments d; shown := render url; jar := jar d |};
     page_source := fun d => Ok (shown d);
     driver_quit := fun _ => Ok tt |}.

Definition rng0 : PyRandom.Rng :=
  {| PyRandom.bits := fun n => 7 * n + 3;
     PyRandom.uniform := fun n => (1 # 3)%Q;
     PyRandom.pos := 0 |}.

Definition world0 : World.t := {| World.rng := rng0; World.trace := [] |}.

(** The document of the specification's example for [extract_text]. *)
Definition hello_world : string :=
  "<html><body><script>x</script>Hello" ++ PyStr.nls 5 ++ "World</body></html>".

(** The document of the specification's example for [extract_links]. *)
Definition three_anchors : string :=
  let q := String PyStr.QUOTE "" in
  "<a href=" ++ q ++ "https://a.com" ++ q ++ ">A</a>"
  ++ "<a href=" ++ q ++ "/rel" ++ q ++ ">B</a>"
  ++ "<a href=" ++ q ++ "http://b.com" ++ q ++ ">C</a>".

(** A document without a body. *)
Definition head_only : string :=
  "<html><head><title>t</title></head></html>".

(** A [RequestsScraper] as its constructor leaves it, and once started. *)
Definition requests_scraper : Scraping.RequestsScraper.t :=
  {| Scraping.user_agent := Some "Mozilla/5.0 (X11; Linux x86_64)";
     Scraping.screen_resolution := Some "1920,1080";
     Scraping.random_user_agent_flag := true;
     Scraping.random_screen_resolution_flag := true;
     Scraping.bs4_parser := "html.parser";
     Scraping.proxy := None;
     Scraping.web_driver := None;
     Scraping.sub := tt |}.

Definition requests_started : Scraping.RequestsScraper.t :=
  Scraping.set_web_driver
    (Some {| proxies := [];
             headers := [("User-Agent", "Mozilla/5.0 (X11; Linux x86_64)")];
             cookies := [] |})
    requests_scraper.

(** A [SeleniumScraper] for chrome, likewise. *)
Definition selenium_scraper : Scraping.SeleniumScraper.t (E := externals) :=
  {| Scraping.user_agent := Some "Mozilla/5.0 (X11; Linux x86_64)";
     Scraping.screen_resolution := Some "1920,1080";
     Scraping.random_user_agent_flag := true;
     Scraping.random_screen_resolution_flag := true;
     Scraping.bs4_parser := "html.parser";
     Scraping.proxy := None;
     Scraping.web_driver := None;
     Scraping.sub :=
       {| Scraping.SeleniumScraper.options :=
            (Scraping.SeleniumScraper.default_options
             ++ ["--window-size=1920,1080";
                 "--user-agent=Mozilla/5.0 (X11; Linux x86_64)"])%list;
          Scraping.SeleniumScraper.browser := "chrome" |} |}.

Definition selenium_started : Scraping.SeleniumScraper.t (E := externals) :=
  Scraping.set_web_driver
    (Some {| name := "chrome";
             arguments := Scraping.SeleniumScraper.options (Scraping.sub selenium_scraper);
             shown := "<html><head></head><body></body></html>";
             jar := [] |})
    selenium_scraper.

End Reference.

(** ** More of the module: loading the catalog, the check of the tests *)

Module More.
Import Py PyStr Bs4.

(** The text without its line feeds. *)
Fixpoint without_lf (s : string) : string :=
  match s with
  | EmptyString => EmptyString
  | String c s' =>
      if Ascii.eqb c LF then without_lf s' else String c (without_lf s')
  end.


(** [s.endswith(p)] *)
Fixpoint endswith (s p : string) : bool :=
  (s =? p)
  || match s with
     | EmptyString => false
     | String _ s' => endswith s' p
     end.

(** [len(s)]: the code points of a text kept as UTF-8, that is its
    bytes other than continuation bytes. *)
Fixpoint len (s : string) : nat :=
  match s with
  | EmptyString => 0
  | String c s' =>
      let n := nat_of_ascii c in
      (if (128 <=? n)%nat && (n <? 192)%nat then 0 else 1) + len s'
  end.

(** [check_html_source] of [tests/test_scraping.py]: [true] when all
    four assertions pass; the argument is what [retrieve_html]
    returned, [None] included. *)
Definition check_html_source (html_body : option string) : bool :=
  match html_body with
  | None => false
  | Some html_body =>
      (6 <=? len html_body)%nat
      && (let html_body := strip html_body in
          startswith html_body "<" && endswith html_body ">")
  end.

(** *** [get_user_agents] *)

(** How a call of [get_user_agents] ends. *)
Inductive loaded (A : Type) : Type :=
| Loaded (a : A)
| AssertionError
| FloatError (text : string).
(* [FloatError]: the [ValueError] of [float(text)]. *)
Arguments Loaded {A} a.
Arguments AssertionError {A}.
Arguments FloatError {A} text.

Section Loading.
(** The file system and the two parsers the function relies on:
    [locate filename] is the path of [filename] beside the module,
    [isfile] is [os.path.isfile], [csv_rows path] are the rows
    [csv.reader] yields for the file, for a file that is opened,
    decoded and read to its end, and [float] is the conversion of
    a field, [None] when it raises. *)
Variable locate : string -> string.
Variable isfile : string -> bool.
Variable csv_rows : string -> list (list string).
Variable float : string -> option Q.

(** The loop over the rows, with the two lists built so far. *)
Fixpoint read_rows (parsed_rows : list (list string))
         (ua_strings : list string) (ua_weights : list Q)
  : loaded (list string * list Q) :=
  match parsed_rows with
  | [] => Loaded (ua_strings, ua_weights)
  | row :: rest =>
      match row with
      | [ua; weight] =>
          match float weight with
          | Some w => read_rows rest (ua_strings ++ [ua])%list (ua_weights ++ [w])%list
          | None => FloatError weight
          end
      | _ => AssertionError
      end
  end.

Definition get_user_agents (filename : string) : loaded (list string * list Q) :=
  let user_agents_filepath := locate filename in
  if negb (endswith filename ".tsv") then AssertionError
  else if negb (isfile user_agents_filepath) then AssertionError
  else read_rows (csv_rows user_agents_filepath) [] [].
End Loading.

(** [MOST_COMMON_USER_AGENTS_FILENAME] *)
Definition MOST_COMMON_USER_AGENTS_FILENAME : string :=
  "most_common_desktop_user_agents.tsv".

(** A row of two fields whose second one [float] accepts. *)
Definition good_row (float : string -> option Q) (row : list string) : bool :=
  match row with
  | [_; weight] => match float weight with Some _ => true | None => false end
  | _ => false
  end.

Definition first_field (row : list string) : string := hd "" row.

Definition second_field (row : list string) : string := hd "" (tl row).

(** *** A small world for these *)

(** A directory with one catalog of two rows. *)
Definition sample_locate (filename : string) : string := "/pkg/" ++ filename.

Definition sample_isfile (path : string) : bool :=
  path =? "/pkg/most_common_desktop_user_agents.tsv".

Definition sample_rows (path : string) : list (list string) :=
  [["Mozilla/5.0 (X11; Linux x86_64)"; "0.5"];
   ["Mozilla/5.0 (Windows NT 10.0; Win64; x64)"; "1"]].

(** The same file with a row of one field in the middle. *)
Definition broken_rows (path : string) : list (list string) :=
  [["Mozilla/5.0 (X11; Linux x86_64)"; "0.5"];
   ["Mozilla/5.0 (Windows NT 10.0; Win64; x64)"];
   ["Mozilla/5.0 (Macintosh; Intel Mac OS X 10_15_7)"; "1"]].

Definition sample_float (field : string) : option Q :=
  if field =? "0.5" then Some (1 # 2)%Q
  else if field =? "1" then Some 1%Q
  else None.

(** The collaborators of [Reference] with a catalog read from an empty file. *)
Definition empty_catalog : Externals :=
  {| MOST_COMMON_USER_AGENTS_STRINGS := [];
     MOST_COMMON_USER_AGENTS_WEIGHTS := [];
     BeautifulSoup := BeautifulSoup (Externals := Reference.externals);
     requests_session := requests_session (Externals := Reference.externals);
     session_get := session_get (Externals := Reference.externals);
     session_close := session_close (Externals := Reference.externals);
     WebDriver := Reference.Browser;
     webdriver_new := webdriver_new (Externals := Reference.externals);
     delete_all_cookies := delete_all_cookies (Externals := Reference.externals);
     driver_get := driver_get (Externals := Reference.externals);
     page_source := page_source (Externals := Reference.externals);
     driver_quit := driver_quit (Externals := Reference.externals) |}.

(** A browser that cannot reach any page, and one that cannot be closed. *)
Definition offline : Externals :=
  {| MOST_COMMON_USER_AGENTS_STRINGS := Reference.user_agents;
     MOST_COMMON_USER_AGENTS_WEIGHTS := Reference.weights;
     BeautifulSoup := BeautifulSoup (Externals := Reference.externals);
     requests_session := requests_session (Externals := Reference.externals);
     session_get := session_get (Externals := Reference.externals);
     session_close := fun _ => Raise (ExternalError "cannot close");
     WebDriver := Reference.Browser;
     webdriver_new := webdriver_new (Externals := Reference.externals);
     delete_all_cookies := delete_all_cookies (Externals := Reference.externals);
     driver_get := fun _ _ => Raise (ExternalError "net::ERR_NAME_NOT_RESOLVED");
     page_source := page_source (Externals := Reference.externals);
     driver_quit := fun _ => Raise (ExternalError "cannot quit") |}.

(** A server that answers every request from a cache: status 203
    (Non-Authoritative Information) and an HTML body. *)
Definition cached_response : Requests.Response :=
  {| Requests.status_code := 203;
     Requests.text := "<html><body><p>Hi</p></body></html>" |}.

Definition cached : Externals :=
  {| MOST_COMMON_USER_AGENTS_STRINGS := Reference.user_agents;
     MOST_COMMON_USER_AGENTS_WEIGHTS := Reference.weights;
     BeautifulSoup := BeautifulSoup (Externals := Reference.externals);
     requests_session := requests_session (Externals := Reference.externals);
     session_get := fun s _ _ => (Ok cached_response, s);
     session_close := session_close (Externals := Reference.externals);
     WebDriver := Reference.Browser;
     webdriver_new := webdriver_new (Externals := Reference.externals);
     delete_all_cookies := delete_all_cookies (Externals := Reference.externals);
     driver_get := driver_get (Externals := Reference.externals);
     page_source := page_source (Externals := Reference.externals);
     driver_quit := driver_quit (Externals := Reference.externals) |}.

(** Every character is ASCII: on such a text the methods of [str]
    that depend on the Unicode database ([lower], [strip]) see only
    ASCII letters and ASCII white space. *)
Definition is_ascii (s : string) : bool :=
  forallb (fun c => (nat_of_ascii c <? 128)%nat) (list_ascii_of_string s).


(** A scraper for a browser that is given but not started, and started. *)
Definition base_for_browser : Scraping.Scraper Reference.Browser unit :=
  {| Scraping.user_agent := Some "Mozilla/5.0 (X11; Linux x86_64)";
     Scraping.screen_resolution := Some "1920,1080";
     Scraping.random_user_agent_flag := true;
     Scraping.random_screen_resolution_flag := true;
     Scraping.bs4_parser := "html.parser";
     Scraping.proxy := None;
     Scraping.web_driver := None;
     Scraping.sub := tt |}.

Definition blank_browser : Reference.Browser :=
  {| Reference.name := "chrome";
     Reference.arguments :=
       Scraping.SeleniumScraper.options (Scraping.sub Reference.selenium_scraper);
     Reference.shown := "<html><head></head><body></body></html>";
     Reference.jar := [] |}.

Definition offline_started : Scraping.SeleniumScraper.t (E := offline) :=
  Reference.selenium_started.

Definition session0 : Requests.Session :=
  {| Requests.proxies := [];
     Requests.headers := [("User-Agent", "Mozilla/5.0 (X11; Linux x86_64)")];
     Requests.cookies := [] |}.

End More.

(** * Properties *)

(** ** Strings *)

Module PyStrFacts.
Import PyStr.

Lemma append_nil_r (s : string) : s ++ "" = s.
Proof. induction s as [|c s IH]; simpl; [reflexivity | now rewrite IH]. Qed.

Lemma append_assoc (a b c : string) : (a ++ b) ++ c = a ++ (b ++ c).
Proof. induction a as [|x a IH]; simpl; [reflexivity | now rewrite IH]. Qed.

Lemma nls_add (a b : nat) : nls (a + b) = nls a ++ nls b.
Proof. induction a as [|a IH]; simpl; [reflexivity | now rewrite IH]. Qed.

Lemma nls_S_app (k : nat) (s : string) : nls (S k) ++ s = nls k ++ String LF s.
Proof. induction k as [|k IH]; simpl in *; [reflexivity | now rewrite IH]. Qed.

Lemma leading_newlines_run (k : nat) (rest : string) :
  starts_with_lf rest = false -> leading_newlines (nls k ++ rest) = k.
Proof.
  intros Hrest. induction k as [|k IH]; simpl.
  - destruct rest as [|c r]; simpl in *; [reflexivity | now rewrite Hrest].
  - now rewrite IH.
Qed.

Lemma map_runs_ext (f g : nat -> nat) :
  (forall k, f k = g k) -> forall s k, map_runs f k s = map_runs g k s.
Proof.
  intros Hfg s. induction s as [|c s IH]; intros k; simpl.
  - now rewrite Hfg.
  - destruct (Ascii.eqb c LF); [apply IH | now rewrite Hfg, IH].
Qed.

Lemma map_runs_nls (f : nat -> nat) (m : nat) :
  forall j t, map_runs f j (nls m ++ t) = map_runs f (j + m) t.
Proof.
  induction m as [|m IH]; intros j t; simpl.
  - now rewrite Nat.add_0_r.
  - rewrite IH. f_equal. lia.
Qed.

(** Two passes over the runs are one pass with the composed rule. *)
Lemma map_runs_compose (f g : nat -> nat) :
  forall s k, map_runs g 0 (map_runs f k s) = map_runs (fun n => g (f n)) k s.
Proof.
  induction s as [|c s IH]; intros k; simpl.
  - rewrite <- (append_nil_r (nls (f k))), map_runs_nls. reflexivity.
  - destruct (Ascii.eqb c LF) eqn:Hc; [apply IH|].
    rewrite map_runs_nls. simpl. rewrite Hc, IH. reflexivity.
Qed.

Section ReSub.
Variables (lo : nat) (hi : option nat) (r : nat) (f : nat -> nat).
Hypothesis lo_pos : 1 <= lo.
Hypothesis hi_mono : forall k, lo <= k -> 1 <= greedy hi k <= k.
Hypothesis f_keep : forall k, k < lo -> f k = k.
Hypothesis f_step : forall k, lo <= k -> f k = r + f (k - greedy hi k).

Lemma re_sub_skip (j : nat) :
  forall k rest, j <= k -> re_sub_from lo hi (nls r) j (nls k ++ rest) = re_sub_from lo hi (nls r) 0 (nls (k - j) ++ rest).
Proof.
  induction j as [|j IH]; intros k rest Hjk.
  - now rewrite Nat.sub_0_r.
  - destruct k as [|k]; [lia|]. simpl. apply IH. lia.
Qed.

Lemma re_sub_run (k : nat) (rest : string) :
  starts_with_lf rest = false ->
  re_sub_from lo hi (nls r) 0 (nls k ++ rest) = nls (f k) ++ re_sub_from lo hi (nls r) 0 rest.
Proof.
  intros Hrest. induction k as [k IH] using (well_founded_induction lt_wf).
  destruct k as [|k].
  - rewrite f_keep by lia. reflexivity.
  - cbn [nls append re_sub_from].
    change (String LF (nls k ++ rest)) with (nls (S k) ++ rest).
    rewrite leading_newlines_run by assumption.
    destruct (Nat.leb_spec lo (S k)) as [Hge | Hlt].
    + pose proof (hi_mono (S k) Hge) as Hg.
      rewrite re_sub_skip by lia.
      replace (k - pred (greedy hi (S k))) with (S k - greedy hi (S k)) by lia.
      rewrite IH by lia. rewrite (f_step (S k) Hge), nls_add, append_assoc.
      reflexivity.
    + rewrite IH by lia.
      rewrite (f_keep (S k)), (f_keep k) by lia. reflexivity.
Qed.

Lemma re_sub_char (c : ascii) (s : string) :
  Ascii.eqb c LF = false -> re_sub_from lo hi (nls r) 0 (String c s) = String c (re_sub_from lo hi (nls r) 0 s).
Proof.
  intros Hc. cbn [re_sub_from leading_newlines]. rewrite Hc.
  destruct (Nat.leb_spec lo 0); [lia | reflexivity].
Qed.

(** One substitution is one pass over the runs of line feeds. *)
Lemma re_sub_map_runs :
  forall s k, re_sub_from lo hi (nls r) 0 (nls k ++ s) = map_runs f k s.
Proof.
  induction s as [|c s IH]; intros k.
  - rewrite re_sub_run by reflexivity. simpl. apply append_nil_r.
  - cbn [map_runs]. destruct (Ascii.eqb c LF) eqn:Hc.
    + apply Ascii.eqb_eq in Hc. subst c.
      rewrite <- nls_S_app. apply IH.
    + rewrite re_sub_run by (simpl; exact Hc).
      rewrite re_sub_char by exact Hc.
      change s with (nls 0 ++ s) at 1. rewrite (IH 0). reflexivity.
Qed.
End ReSub.

End PyStrFacts.

(** ** The whitespace-collapse step *)

Module TextFacts.
Import PyStr PyStrFacts Text.

Lemma rule2_step (k : nat) : 4 <= k -> rule2 k = 2 + rule2 (k - 4).
Proof.
  intros Hk. unfold rule2.
  replace k with ((k - 4) + 1 * 4) at 1 2 by lia.
  rewrite Nat.div_add, Nat.Div0.mod_add by lia. lia.
Qed.

Lemma rule2_small (k : nat) : k < 4 -> rule2 k = k.
Proof.
  intros Hk. unfold rule2.
  rewrite Nat.div_small, Nat.mod_small by lia. lia.
Qed.

Lemma rule3_step (k : nat) : 3 <= k -> rule3 k = 1 + rule3 (k - 3).
Proof.
  intros Hk. unfold rule3.
  replace (k + 2) with ((k - 3 + 2) + 1 * 3) by lia.
  rewrite Nat.div_add by lia. lia.
Qed.

Lemma sub1_runs (s : string) :
  re_sub_newlines 5 None (nls 3) s = map_runs rule1 0 s.
Proof.
  apply (re_sub_map_runs 5 None 3 rule1) with (k := 0); unfold rule1, greedy.
  - lia.
  - intros k Hk. lia.
  - intros k Hk. destruct (Nat.leb_spec 5 k); [lia | reflexivity].
  - intros k Hk. rewrite Nat.sub_diag.
    destruct (Nat.leb_spec 5 k); [reflexivity | lia].
Qed.

Lemma sub2_runs (s : string) :
  re_sub_newlines 4 (Some 4) (nls 2) s = map_runs rule2 0 s.
Proof.
  apply (re_sub_map_runs 4 (Some 4) 2 rule2) with (k := 0); unfold greedy.
  - lia.
  - intros k Hk. lia.
  - apply rule2_small.
  - intros k Hk. rewrite Nat.min_r by lia. now apply rule2_step.
Qed.

Lemma sub3_runs (s : string) :
  re_sub_newlines 2 (Some 3) (nls 1) s = map_runs rule3 0 s.
Proof.
  apply (re_sub_map_runs 2 (Some 3) 1 rule3) with (k := 0); unfold greedy.
  - lia.
  - intros k Hk. lia.
  - intros k Hk. unfold rule3.
    destruct k as [|[|k]]; [reflexivity | reflexivity | lia].
  - intros k Hk. destruct (Nat.le_gt_cases 3 k) as [H3 | H3].
    + rewrite Nat.min_r by lia. now apply rule3_step.
    + assert (k = 2) by lia. subst k. reflexivity.
Qed.

(** Run by run, the three substitutions compose to "at most one line
    feed": the third one also matches what the first two produce. *)
Lemma rules_compose (k : nat) : rule3 (rule2 (rule1 k)) = Nat.min 1 k.
Proof.
  unfold rule1. destruct (Nat.leb_spec 5 k) as [H5 | H5].
  - rewrite Nat.min_l by lia. reflexivity.
  - do 5 (destruct k as [|k]; [reflexivity|]). lia.
Qed.

Lemma process_text_squeeze (s : string) : _process_text s = squeeze s.
Proof.
  unfold _process_text, squeeze.
  rewrite sub1_runs, sub2_runs, sub3_runs, !map_runs_compose.
  apply map_runs_ext. intros k. apply rules_compose.
Qed.

Lemma squeeze_idempotent (s : string) : squeeze (squeeze s) = squeeze s.
Proof.
  unfold squeeze. rewrite map_runs_compose.
  apply map_runs_ext. intros k. lia.
Qed.

Lemma prefix_lf_char (c : ascii) (p s : string) :
  Ascii.eqb c LF = false -> String.prefix (String LF p) (String c s) = false.
Proof.
  intros Hc. cbn [String.prefix]. destruct (ascii_dec LF c) as [Heq | _]; [|reflexivity].
  subst c. rewrite Ascii.eqb_refl in Hc. discriminate.
Qed.

Lemma contains_cons (needle : string) (c : ascii) (hay : string) :
  contains needle (String c hay)
  = String.prefix needle (String c hay) || contains needle hay.
Proof. reflexivity. Qed.

Lemma squeeze_no_blank_line (s : string) :
  forall k, contains (nls 2) (map_runs (Nat.min 1) k s) = false.
Proof.
  induction s as [|c s IH]; intros k.
  - destruct k; reflexivity.
  - cbn [map_runs]. destruct (Ascii.eqb c LF) eqn:Hc; [apply IH|].
    assert (Hhere : contains (nls 2) (String c (map_runs (Nat.min 1) 0 s)) = false).
    { rewrite contains_cons. change (nls 2) with (String LF (nls 1)).
      rewrite (prefix_lf_char c _ _ Hc). apply IH. }
    destruct k as [|k]; [exact Hhere|].
    change (Nat.min 1 (S k)) with 1.
    change (nls 1 ++ String c (map_runs (Nat.min 1) 0 s))
      with (String LF (String c (map_runs (Nat.min 1) 0 s))).
    rewrite contains_cons, Hhere, orb_false_r.
    change (nls 2) with (String LF (String LF "")).
    cbn [String.prefix]. destruct (ascii_dec LF LF) as [_ | Hne]; [|now elim Hne].
    apply (prefix_lf_char c _ _ Hc).
Qed.

(** Whatever the input, the text that leaves [_process_text] has no
    two line feeds in a row. *)
Lemma process_text_no_blank_line (s : string) :
  contains (nls 2) (_process_text s) = false.
Proof. rewrite process_text_squeeze. apply squeeze_no_blank_line. Qed.

(** A run of five or more line feeds between two characters leaves as one. *)
Lemma process_text_long_run (n : nat) (c d : ascii) :
  5 <= n -> Ascii.eqb c LF = false -> Ascii.eqb d LF = false ->
  _process_text (String c (nls n ++ String d "")) = String c (String LF (String d "")).
Proof.
  intros Hn Hc Hd. rewrite process_text_squeeze. unfold squeeze.
  cbn [map_runs]. rewrite Hc. rewrite map_runs_nls. cbn [map_runs]. rewrite Hd.
  replace (Nat.min 1 (0 + n)) with 1 by lia. reflexivity.
Qed.

(** C7. The whitespace-collapse step is idempotent: applying the three
    substitutions of [_process_text] to a text that already went
    through them changes nothing. *)
Theorem process_text_idempotent (s : string) :
  _process_text (_process_text s) = _process_text s.
Proof. rewrite !process_text_squeeze. apply squeeze_idempotent. Qed.

End TextFacts.

(** ** Extraction from the parse tree *)

Module HtmlFacts.
Import Py PyStr Bs4 Scraping Spec.

Lemma links_loop (tags : list node) :
  forall result,
    fold_left
      (fun result tag =>
         match get tag "href" with
         | Some link =>
             if negb (link =? "") && startswith link "http"
             then (result ++ [link])%list
             else result
         | None => result
         end) tags result
    = (result ++ flat_map kept_link tags)%list.
Proof.
  induction tags as [|tag tags IH]; intros result; cbn [fold_left flat_map].
  - now rewrite app_nil_r.
  - rewrite IH. unfold kept_link at 2.
    destruct (get tag "href") as [link|]; [|reflexivity].
    destruct (negb (link =? "") && startswith link "http");
      [now rewrite <- app_assoc | reflexivity].
Qed.

Lemma http_not_empty (link : string) :
  String.prefix "http" link = true -> negb (link =? "") = true.
Proof. destruct link; [discriminate | reflexivity]. Qed.

Lemma kept_link_tag (name : string) (attrs : dict) (cs : list node) :
  kept_link (Tag name attrs cs)
  = filter (String.prefix "http")
           (match dict_get attrs "href" with Some l => [l] | None => [] end).
Proof.
  unfold kept_link, get, startswith.
  destruct (dict_get attrs "href") as [link|]; [|reflexivity].
  cbn [filter]. destruct (String.prefix "http" link) eqn:Hp.
  - now rewrite (http_not_empty link Hp).
  - now rewrite andb_false_r.
Qed.

(** The anchors found by [find_all] carry the links of a reading of
    the tree from left to right. *)
Lemma kept_links_node (n : node) :
  flat_map kept_link (filter (is_tag "a") (self_and_descendants n))
  = filter (String.prefix "http") (Spec.anchor_hrefs n).
Proof.
  induction n as [s | name attrs cs IH] using node_tree_ind; [reflexivity|].
  cbn [self_and_descendants Spec.anchor_hrefs filter is_tag].
  rewrite filter_app.
  assert (Hcs : flat_map kept_link
                  (filter (is_tag "a") (flat_map self_and_descendants cs))
                = filter (String.prefix "http") (flat_map Spec.anchor_hrefs cs)).
  { induction IH as [|c cs Hc _ IHcs]; [reflexivity|].
    cbn [flat_map]. rewrite !filter_app, flat_map_app, Hc, IHcs. reflexivity. }
  destruct (name =? "a").
  - cbn [flat_map]. rewrite kept_link_tag, Hcs. reflexivity.
  - rewrite Hcs. reflexivity.
Qed.

Lemma kept_links_tree (tree : soup) :
  flat_map kept_link (find_all "a" tree) = Spec.links tree.
Proof.
  unfold find_all, descendants, Spec.links.
  induction tree as [|n tree IH]; [reflexivity|].
  cbn [flat_map]. rewrite !filter_app, flat_map_app, kept_links_node, IH.
  reflexivity.
Qed.

Lemma find_none (name : string) (tree : soup) :
  ~ Spec.HasElement name tree -> find name tree = None.
Proof.
  intros Hno. unfold find, find_all.
  destruct (filter (is_tag name) (descendants tree)) as [|n rest] eqn:Hf;
    [reflexivity|].
  exfalso. apply Hno. exists n. apply filter_In. rewrite Hf. now left.
Qed.

Section WithExternals.
Context {E : Externals} {D X : Type}.

Lemma extract_links_links (s : Scraper D X) (html_body : string) :
  extract_links s html_body
  = Spec.links (BeautifulSoup html_body (bs4_parser s)).
Proof.
  unfold extract_links. rewrite links_loop. apply kept_links_tree.
Qed.

(** C9. When the parse tree of the document has no [body] element,
    [extract_text] returns the empty string. *)
Theorem extract_text_no_body (s : Scraper D X) (html_body : string) :
  ~ Spec.HasElement "body" (BeautifulSoup html_body (bs4_parser s)) ->
  extract_text s html_body = "".
Proof.
  intros Hno. unfold extract_text. now rewrite (find_none _ _ Hno).
Qed.
End WithExternals.

(** C5. For every HTML document, [extract_links] returns exactly the
    [href] values of its anchor elements that begin with [http], in
    document order and with repetitions kept; for the three anchors
    [https://a.com], [/rel] and [http://b.com] it returns the first and
    the third, in that order. *)
Theorem extract_links_spec :
  (forall (E : Externals) (D X : Type) (s : Scraper D X) (html_body : string),
      extract_links s html_body
      = Spec.links (BeautifulSoup html_body (bs4_parser s)))
  /\ (forall (D X : Type) (s : Scraper D X),
         extract_links (E := Reference.externals) s Reference.three_anchors
         = ["https://a.com"; "http://b.com"]).
Proof.
  split.
  - intros E D X s html_body. apply extract_links_links.
  - intros D X s. rewrite extract_links_links. reflexivity.
Qed.

(** C1, as the code has it.  The third substitution also matches the
    three line feeds the first one leaves, so no run of line feeds
    survives [_process_text]: the text of the example, where five line
    feeds separate [Hello] and [World], comes out with one line feed
    between them, and not with the three that the rule of the
    specification gives. *)
Theorem extract_text_five_newlines :
  (forall t : string, contains (nls 2) (Text._process_text t) = false)
  /\ (forall (D X : Type) (s : Scraper D X),
         extract_text (E := Reference.externals) s Reference.hello_world
         = "Hello" ++ nls 1 ++ "World")
  /\ map_runs Text.spec_rule 0 ("Hello" ++ nls 5 ++ "World")
     = "Hello" ++ nls 3 ++ "World"
  /\ Text._process_text ("Hello" ++ nls 5 ++ "World")
     <> map_runs Text.spec_rule 0 ("Hello" ++ nls 5 ++ "World").
Proof.
  repeat apply conj.
  - apply TextFacts.process_text_no_blank_line.
  - intros D X s. vm_compute. reflexivity.
  - reflexivity.
  - vm_compute. discriminate.
Qed.

End HtmlFacts.

(** ** Construction and the session *)

Module SessionFacts.
Import Py PyStr Requests Scraping.
Local Open Scope py_scope.

Lemma bind_ok {S A B} (c : M S A) (k : A -> M S B) (s s' : S) (b : B) :
  bind c k s = (Ok b, s') ->
  exists a s1, c s = (Ok a, s1) /\ k a s1 = (Ok b, s').
Proof.
  unfold bind. destruct (c s) as [[a | e] s1]; intros H; [|discriminate].
  now exists a, s1.
Qed.

Lemma bind_step {S A B} (c : M S A) (k : A -> M S B) (s s1 : S) (a : A) :
  c s = (Ok a, s1) -> bind c k s = k a s1.
Proof. intros H. unfold bind. now rewrite H. Qed.

Lemma bind_raise {S A B} (c : M S A) (k : A -> M S B) (s s1 : S) (e : exn) :
  c s = (Raise e, s1) -> bind c k s = (Raise e, s1).
Proof. intros H. unfold bind. now rewrite H. Qed.

(** *** Strings given as proxies *)

Lemma split_from_length (sep : ascii) (s : string) :
  forall cur, List.length (split_from sep cur s) = S (count_char sep s).
Proof.
  induction s as [|c s IH]; intros cur; cbn [split_from count_char].
  - reflexivity.
  - destruct (Ascii.eqb c sep); cbn [List.length]; rewrite IH; reflexivity.
Qed.

(** [s.split(sep)] has one piece more than [s] has separators. *)
Lemma split_length (s : string) (sep : ascii) :
  List.length (split s sep) = S (count_char sep s).
Proof. apply split_from_length. Qed.

Lemma invalid_proxy_colons (p : string) :
  invalid_proxy (Some p) = true <-> p <> "" /\ count_char ":"%char p <> 1.
Proof.
  unfold invalid_proxy. rewrite split_length, andb_true_iff, !negb_true_iff.
  rewrite String.eqb_neq, Nat.eqb_neq. intuition lia.
Qed.

(** *** The random module *)

Lemma choices1_member (population : list string) (weights : list Q)
      (g g' : PyRandom.Rng) (x : string) :
  PyRandom.choices1 population weights g = (Ok x, g') -> In x population.
Proof.
  unfold PyRandom.choices1.
  destruct (negb _); [discriminate|].
  destruct (last _ _) as [total|]; [|discriminate].
  destruct (Qle_bool total 0); [discriminate|].
  destruct (PyRandom.random g) as [r g1].
  destruct (nth_error population _) as [y|] eqn:Hn; [|discriminate].
  intros H. injection H as -> _. eapply nth_error_In, Hn.
Qed.

Lemma choice_member (seq : list string) (g g' : PyRandom.Rng) (x : string) :
  PyRandom.choice seq g = (Ok x, g') -> In x seq.
Proof.
  unfold PyRandom.choice. destruct seq as [|y seq]; [discriminate|].
  destruct (PyRandom.randbelow _ g) as [i g1].
  destruct (nth_error (y :: seq) i) as [z|] eqn:Hn; [|discriminate].
  intros H. injection H as -> _. eapply nth_error_In, Hn.
Qed.

(** On a non-empty sequence [random.choice] returns. *)
Lemma choice_returns (y : string) (seq : list string) (g : PyRandom.Rng) :
  exists x, PyRandom.choice (y :: seq) g = (Ok x, PyRandom.advance g).
Proof.
  unfold PyRandom.choice, PyRandom.randbelow.
  destruct (nth_error (y :: seq) _) as [z|] eqn:Hn; [now exists z|].
  apply nth_error_None in Hn.
  pose proof (Nat.mod_upper_bound (PyRandom.bits g (PyRandom.pos g))
                                  (List.length (y :: seq))) as Hlt.
  cbn [List.length] in *. lia.
Qed.

Lemma bisect_loop_bounds (a : list Q) (x : Q) (fuel : nat) :
  forall lo hi, lo <= hi -> lo <= PyRandom.bisect_loop fuel a x lo hi <= hi.
Proof.
  induction fuel as [|fuel IH]; intros lo hi Hle; cbn [PyRandom.bisect_loop].
  - lia.
  - destruct (Nat.ltb_spec lo hi) as [Hlt | Hge]; [|lia].
    assert (Hmid : lo <= (lo + hi) / 2 < hi).
    { split.
      - apply Nat.div_le_lower_bound; lia.
      - apply Nat.Div0.div_lt_upper_bound; lia. }
    destruct (negb _).
    + specialize (IH lo ((lo + hi) / 2)). lia.
    + specialize (IH ((lo + hi) / 2 + 1) hi). lia.
Qed.

(** The loop of [bisect] is over before its fuel is: more fuel does
    not change what it returns. *)
Lemma bisect_loop_fuel (a : list Q) (x : Q) (fuel : nat) :
  forall lo hi extra,
    hi - lo <= fuel ->
    PyRandom.bisect_loop (fuel + extra) a x lo hi = PyRandom.bisect_loop fuel a x lo hi.
Proof.
  induction fuel as [|fuel IH]; intros lo hi extra Hfuel.
  - cbn [Nat.add PyRandom.bisect_loop]. destruct extra as [|extra]; [reflexivity|].
    cbn [PyRandom.bisect_loop].
    destruct (Nat.ltb_spec lo hi); [lia | reflexivity].
  - cbn [Nat.add PyRandom.bisect_loop].
    destruct (Nat.ltb_spec lo hi) as [Hlt | Hge]; [|reflexivity].
    assert (Hmid : lo <= (lo + hi) / 2 < hi).
    { split.
      - apply Nat.div_le_lower_bound; lia.
      - apply Nat.Div0.div_lt_upper_bound; lia. }
    destruct (negb _); apply IH; lia.
Qed.

Lemma accumulate_from_length (weights : list Q) :
  forall acc, List.length (PyRandom.accumulate_from acc weights) = List.length weights.
Proof.
  induction weights as [|x weights IH]; intros acc; cbn; [reflexivity | now rewrite IH].
Qed.

Lemma accumulate_length (weights : list Q) :
  List.length (PyRandom.accumulate weights) = List.length weights.
Proof.
  destruct weights as [|x weights]; cbn; [reflexivity | now rewrite accumulate_from_length].
Qed.

(** On a catalog that can be drawn from, [random.choices] returns one
    of its entries. *)
Lemma choices1_returns (population : list string) (weights : list Q) (total : Q)
      (g : PyRandom.Rng) :
  Spec.catalog_ok population weights total ->
  exists x, PyRandom.choices1 population weights g = (Ok x, PyRandom.advance g)
            /\ In x population.
Proof.
  intros (Hlen & Htotal & Hpos). unfold PyRandom.choices1.
  rewrite accumulate_length, Hlen, Nat.eqb_refl. cbn [negb].
  rewrite Htotal, Hpos. unfold PyRandom.random.
  assert (Hn : 0 < List.length population).
  { rewrite <- Hlen. destruct weights; [discriminate Htotal | cbn; lia]. }
  pose proof (bisect_loop_bounds
                (PyRandom.accumulate weights)
                (PyRandom.uniform g (PyRandom.pos g) * total)%Q
                (List.length population - 1 - 0) 0 (List.length population - 1)
                (Nat.le_0_l _)) as Hb.
  fold (PyRandom.bisect (PyRandom.accumulate weights)
                        (PyRandom.uniform g (PyRandom.pos g) * total)%Q
                        0 (List.length population - 1)) in Hb.
  destruct (nth_error population _) as [x|] eqn:Hx.
  - exists x. split; [reflexivity | eapply nth_error_In, Hx].
  - apply nth_error_None in Hx. lia.
Qed.

(** *** Construction *)

Ltac init_done :=
  cbn [proxy web_driver bs4_parser user_agent screen_resolution
       set_web_driver set_screen_resolution set_user_agent set_proxy];
  repeat split;
  try reflexivity;
  try (eexists; eexists; split; [eassumption | reflexivity]);
  try (eexists; split; [eapply choice_member; eassumption | reflexivity]).

Section Construction.
Context {E : Externals}.

Lemma refresh_user_agent_ok {D X} (s : Scraper D X) (w : World.t) (st' : Scraper D X * World.t) :
  refresh_user_agent (s, w) = (Ok tt, st') ->
  exists ua g,
    PyRandom.choices1 MOST_COMMON_USER_AGENTS_STRINGS
                      MOST_COMMON_USER_AGENTS_WEIGHTS (World.rng w) = (Ok ua, g)
    /\ st' = (set_user_agent (Some ua) s,
              World.emit (World.Logged ("current user agent: " ++ ua))
                         (World.with_rng w g)).
Proof.
  unfold refresh_user_agent, with_random, bind, assign, logger_info.
  cbn [fst snd].
  destruct (PyRandom.choices1 _ _ _) as [[ua | e] g]; [|discriminate].
  intros H. injection H as <-. now exists ua, g.
Qed.

Lemma refresh_screen_resolution_ok {D X} (s : Scraper D X) (w : World.t)
      (st' : Scraper D X * World.t) :
  refresh_screen_resolution (s, w) = (Ok tt, st') ->
  exists sr g,
    PyRandom.choice MOST_COMMON_SCREEN_RESOLUTIONS (World.rng w) = (Ok sr, g)
    /\ st' = (set_screen_resolution (Some sr) s,
              World.emit (World.Logged ("current screen resolution: " ++ sr))
                         (World.with_rng w g)).
Proof.
  unfold refresh_screen_resolution, with_random, bind, assign, logger_info.
  cbn [fst snd].
  destruct (PyRandom.choice _ _) as [[sr | e] g]; [|discriminate].
  intros H. injection H as <-. now exists sr, g.
Qed.

(** What a constructor that returns has done. *)
Lemma base_init_ok {D} (a : init_args) (w w' : World.t) (s : Scraper D unit) :
  BaseScraper.__init__ a w = (Ok s, w') ->
  invalid_proxy (arg_proxy a) = false
  /\ proxy s = arg_proxy a
  /\ web_driver s = None
  /\ bs4_parser s = arg_bs4_parser a
  /\ (if arg_random_user_agent_flag a
      then exists ua g,
          PyRandom.choices1 MOST_COMMON_USER_AGENTS_STRINGS
                            MOST_COMMON_USER_AGENTS_WEIGHTS (World.rng w) = (Ok ua, g)
          /\ user_agent s = Some ua
      else user_agent s = arg_user_agent a)
  /\ (if arg_random_screen_resolution_flag a
      then exists sr, In sr MOST_COMMON_SCREEN_RESOLUTIONS
                      /\ screen_resolution s = Some sr
      else screen_resolution s = arg_screen_resolution a).
Proof.
  unfold BaseScraper.__init__, construct.
  destruct (invalid_proxy (arg_proxy a)); [discriminate|].
  match goal with |- context [bind ?c ?k ?st] => destruct (bind c k st) as [[u | e] [s1 w1]] eqn:Hbody end;
    [|discriminate].
  intros H. injection H as <- <-.
  apply bind_ok in Hbody. destruct Hbody as (u1 & st1 & H1 & Hbody).
  unfold assign in H1. cbn [fst snd] in H1. injection H1 as _ <-.
  apply bind_ok in Hbody. destruct Hbody as (s2 & st2 & H2 & Hbody).
  unfold self in H2. cbn [fst] in H2. injection H2 as <- <-.
  apply bind_ok in Hbody. destruct Hbody as (u3 & st3 & H3 & Hbody).
  apply bind_ok in Hbody. destruct Hbody as (s4 & st4 & H4 & Hbody).
  unfold self in H4. injection H4 as <- <-.
  apply bind_ok in Hbody. destruct Hbody as (u5 & st5 & H5 & Hbody).
  unfold assign in Hbody. injection Hbody as _ <- <-.
  cbn [set_proxy random_user_agent_flag] in H3.
  destruct u3, u5.
  destruct (arg_random_user_agent_flag a) eqn:Fua.
  - cbn [when] in H3. apply refresh_user_agent_ok in H3.
    destruct H3 as (ua & g & Hdraw & ->).
    cbn [fst snd set_user_agent random_screen_resolution_flag World.rng] in H5.
    destruct (arg_random_screen_resolution_flag a) eqn:Fsr.
    + cbn [when] in H5. apply refresh_screen_resolution_ok in H5.
      destruct H5 as (sr & g2 & Hdraw2 & ->).
      init_done.
    + cbn [when ret] in H5. injection H5 as <-.
      init_done.
  - cbn [when ret] in H3. injection H3 as <-.
    cbn [fst snd random_screen_resolution_flag] in H5.
    destruct (arg_random_screen_resolution_flag a) eqn:Fsr.
    + cbn [when] in H5. apply refresh_screen_resolution_ok in H5.
      destruct H5 as (sr & g2 & Hdraw2 & ->).
      init_done.
    + cbn [when ret] in H5. injection H5 as <-.
      init_done.
Qed.

(** On a catalog that can be drawn from and with a proxy that passes
    the check, the constructor returns. *)
Lemma base_init_returns {D} (a : init_args) (w : World.t) (total : Q) :
  Spec.catalog_ok MOST_COMMON_USER_AGENTS_STRINGS MOST_COMMON_USER_AGENTS_WEIGHTS total ->
  invalid_proxy (arg_proxy a) = false ->
  exists (s : Scraper D unit) (w' : World.t), BaseScraper.__init__ a w = (Ok s, w').
Proof.
  intros Hcat Hproxy. unfold BaseScraper.__init__, construct. rewrite Hproxy.
  cbv beta iota delta [bind when self assign ret fst snd set_proxy
                       random_user_agent_flag random_screen_resolution_flag].
  assert (Hsr : forall (s : Scraper D unit) w0,
             exists sr w1, refresh_screen_resolution (s, w0)
                           = (Ok tt, (set_screen_resolution (Some sr) s, w1))).
  { intros s w0. unfold refresh_screen_resolution, with_random, bind, assign, logger_info.
    cbn [fst snd]. unfold MOST_COMMON_SCREEN_RESOLUTIONS.
    destruct (choice_returns "1920,1080" ["1366,768"; "1536,864"; "1440,900"; "1600,900"]
                             (World.rng w0)) as [sr Hsr].
    rewrite Hsr. eauto. }
  assert (Hua : forall (s : Scraper D unit) w0,
             exists ua w1, refresh_user_agent (s, w0)
                           = (Ok tt, (set_user_agent (Some ua) s, w1))).
  { intros s w0. unfold refresh_user_agent, with_random, bind, assign, logger_info.
    cbn [fst snd].
    destruct (choices1_returns _ _ _ (World.rng w0) Hcat) as (ua & Hdraw & _).
    rewrite Hdraw. eauto. }
  destruct (arg_random_user_agent_flag a), (arg_random_screen_resolution_flag a).
  - match goal with |- context [refresh_user_agent (?s0, ?w0)] =>
                      destruct (Hua s0 w0) as (ua & w1 & H1) end.
    rewrite H1. cbv beta iota delta [set_user_agent random_screen_resolution_flag].
    match goal with |- context [refresh_screen_resolution (?s0, ?w0)] =>
                      destruct (Hsr s0 w0) as (sr & w2 & H2) end.
    rewrite H2. eauto.
  - match goal with |- context [refresh_user_agent (?s0, ?w0)] =>
                      destruct (Hua s0 w0) as (ua & w1 & H1) end.
    rewrite H1. cbv beta iota delta [set_user_agent random_screen_resolution_flag].
    eauto.
  - match goal with |- context [refresh_screen_resolution (?s0, ?w0)] =>
                      destruct (Hsr s0 w0) as (sr & w2 & H2) end.
    rewrite H2. eauto.
  - eauto.
Qed.

Lemma selenium_init_ok (a : init_args) (browser_name : string) (opts : list string)
      (w w' : World.t) (s : SeleniumScraper.t) :
  SeleniumScraper.__init__ a browser_name opts w = (Ok s, w') ->
  exists base f, BaseScraper.__init__ a w = (Ok base, w') /\ s = set_sub f base.
Proof.
  unfold SeleniumScraper.__init__. intros H.
  apply bind_ok in H. destruct H as (base & w1 & Hbase & H).
  destruct (_ || _); [|discriminate].
  unfold ret in H. injection H as <- <-. eauto.
Qed.

(** A proxy that fails the check stops the constructor at once:
    nothing was drawn, nothing was logged. *)
Lemma base_init_invalid_proxy {D} (a : init_args) (w : World.t) :
  invalid_proxy (arg_proxy a) = true ->
  BaseScraper.__init__ (D := D) a w = (Raise (ValueError invalid_proxy_message), w).
Proof.
  intros H. unfold BaseScraper.__init__, construct. now rewrite H.
Qed.

(** C8, amended.  For every non-empty proxy string that has no
    colon or more than one, the constructor of either scraper raises
    [ValueError] before anything is sampled or logged and before any
    session exists. *)
Theorem invalid_proxy_rejected (a : init_args) (w : World.t) (p : string)
        (browser_name : string) (opts : list string) :
  arg_proxy a = Some p ->
  p <> "" ->
  count_char ":"%char p <> 1 ->
  RequestsScraper.__init__ a w = (Raise (ValueError invalid_proxy_message), w)
  /\ SeleniumScraper.__init__ a browser_name opts w
     = (Raise (ValueError invalid_proxy_message), w).
Proof.
  intros Hp Hne Hcolons.
  assert (Hbad : invalid_proxy (arg_proxy a) = true).
  { rewrite Hp. now apply invalid_proxy_colons. }
  split.
  - now apply base_init_invalid_proxy.
  - unfold SeleniumScraper.__init__.
    now rewrite (bind_raise _ _ _ _ _ (base_init_invalid_proxy a w Hbad)).
Qed.

(** The draws behind the identity of a scraper that was built. *)
Lemma base_init_identity {D} (a : init_args) (w w' : World.t) (s : Scraper D unit) :
  BaseScraper.__init__ a w = (Ok s, w') ->
  Spec.identity_after a w (user_agent s) (screen_resolution s).
Proof.
  unfold BaseScraper.__init__, construct.
  destruct (invalid_proxy (arg_proxy a)); [discriminate|].
  match goal with |- context [bind ?c ?k ?st] => destruct (bind c k st) as [[u | e] [s1 w1]] eqn:Hbody end;
    [|discriminate].
  intros H. injection H as <- <-.
  apply bind_ok in Hbody. destruct Hbody as (u1 & st1 & H1 & Hbody).
  unfold assign in H1. cbn [fst snd] in H1. injection H1 as _ <-.
  apply bind_ok in Hbody. destruct Hbody as (s2 & st2 & H2 & Hbody).
  unfold self in H2. cbn [fst] in H2. injection H2 as <- <-.
  apply bind_ok in Hbody. destruct Hbody as (u3 & st3 & H3 & Hbody).
  apply bind_ok in Hbody. destruct Hbody as (s4 & st4 & H4 & Hbody).
  unfold self in H4. injection H4 as <- <-.
  apply bind_ok in Hbody. destruct Hbody as (u5 & st5 & H5 & Hbody).
  unfold assign in Hbody. injection Hbody as _ <- <-.
  cbn [set_proxy random_user_agent_flag] in H3.
  destruct u3, u5. unfold Spec.identity_after.
  destruct (arg_random_user_agent_flag a) eqn:Fua.
  - cbn [when] in H3. apply refresh_user_agent_ok in H3.
    destruct H3 as (ua & g & Hdraw & ->).
    cbn [fst snd set_user_agent random_screen_resolution_flag World.rng] in H5.
    exists g.
    destruct (arg_random_screen_resolution_flag a) eqn:Fsr.
    + cbn [when] in H5. apply refresh_screen_resolution_ok in H5.
      destruct H5 as (sr & g2 & Hdraw2 & ->).
      cbn [World.rng World.emit World.with_rng] in Hdraw2.
      repeat split; try discriminate.
      * intros _. exists ua. repeat split; eauto using choices1_member.
      * intros _. exists sr, g2. repeat split; eauto using choice_member.
    + cbn [when ret] in H5. injection H5 as <-.
      repeat split; try discriminate.
      intros _. exists ua. repeat split; eauto using choices1_member.
  - cbn [when ret] in H3. injection H3 as <-.
    cbn [fst snd random_screen_resolution_flag] in H5.
    exists (World.rng w).
    destruct (arg_random_screen_resolution_flag a) eqn:Fsr.
    + cbn [when] in H5. apply refresh_screen_resolution_ok in H5.
      destruct H5 as (sr & g2 & Hdraw2 & ->).
      repeat split; try discriminate.
      intros _. exists sr, g2. repeat split; eauto using choice_member.
    + cbn [when ret] in H5. injection H5 as <-.
      repeat split; discriminate.
Qed.

(** C10.  The randomize flags are [True] by default.  When a
    constructor of either scraper returns, a field whose flag is
    [True] holds the value the generator drew for it from the
    catalog ([random.choices] for the user agent, then
    [random.choice] for the screen resolution), whatever value was
    passed for it; a field whose flag is [False] holds the value
    passed. *)
Theorem explicit_identity_discarded :
  arg_random_user_agent_flag default_args = true
  /\ arg_random_screen_resolution_flag default_args = true
  /\ forall (a : init_args) (w w' : World.t) (base : Scraper Session unit)
            (s : SeleniumScraper.t) (browser_name : string) (opts : list string),
      (RequestsScraper.__init__ a w = (Ok base, w')
       -> Spec.identity_after a w (user_agent base) (screen_resolution base))
      /\ (SeleniumScraper.__init__ a browser_name opts w = (Ok s, w')
          -> Spec.identity_after a w (user_agent s) (screen_resolution s)).
Proof.
  split; [reflexivity|]. split; [reflexivity|].
  intros a w w' base s browser_name opts. split.
  - apply base_init_identity.
  - intros H. apply selenium_init_ok in H. destruct H as (b & f & Hb & ->).
    apply (base_init_identity _ _ _ _ Hb).
Qed.
End Construction.

End SessionFacts.

(** ** Fetching pages *)

Module FetchFacts.
Import Py PyStr Requests Scraping SessionFacts.
Local Open Scope py_scope.

(** *** Substrings *)

Lemma prefix_app (p s : string) :
  String.prefix p s = true <-> exists rest, s = p ++ rest.
Proof.
  revert s. induction p as [|a p IH]; intros s.
  - split; [intros _; now exists s | intros _; now destruct s].
  - destruct s as [|b s]; cbn [String.prefix append].
    + split; [discriminate | intros [rest H]; discriminate].
    + destruct (ascii_dec a b) as [-> | Hne].
      * rewrite IH. split; intros [rest H]; exists rest; [now rewrite H | now injection H].
      * split; [discriminate | intros [rest H]; congruence].
Qed.

(** [needle in hay] holds exactly when [needle] occurs in [hay]. *)
Lemma contains_substring (needle hay : string) :
  contains needle hay = true <-> Spec.Substring needle hay.
Proof.
  unfold Spec.Substring. induction hay as [|c hay IH].
  - cbn [contains]. rewrite orb_false_r, prefix_app. split.
    + intros [rest H]. now exists "", rest.
    + intros (before & after & H). destruct before; [now exists after|discriminate].
  - rewrite TextFacts.contains_cons, orb_true_iff, prefix_app, IH. split.
    + intros [[rest H] | (before & after & H)].
      * now exists "", rest.
      * exists (String c before), after. cbn [append]. now rewrite H.
    + intros (before & after & H). destruct before as [|b before].
      * left. now exists after.
      * right. cbn [append] in H. injection H as _ H. now exists before, after.
Qed.

Lemma not_contains_substring (needle hay : string) :
  contains needle hay = false <-> ~ Spec.Substring needle hay.
Proof.
  rewrite <- contains_substring. destruct (contains needle hay); intuition congruence.
Qed.

Section Guard.
Context {E : Externals}.

Lemma decorator_not_started {D X A} (method : Method D X A)
      (s : Scraper D X) (w : World.t) :
  web_driver s = None ->
  check_web_driver_decorator method (s, w)
  = (Raise (AttributeError not_started), (s, w)).
Proof. intros H. unfold check_web_driver_decorator. cbn [fst]. now rewrite H. Qed.

Lemma decorator_started {D X A} (method : Method D X A)
      (s : Scraper D X) (w : World.t) (d : D) :
  web_driver s = Some d ->
  check_web_driver_decorator method (s, w) = method (s, w).
Proof. intros H. unfold check_web_driver_decorator. cbn [fst]. now rewrite H. Qed.

Lemma requests_quit_ok (st st' : RequestsScraper.t * World.t) :
  RequestsScraper.quit st = (Ok tt, st') -> web_driver (fst st') = None.
Proof.
  unfold RequestsScraper.quit, check_web_driver_decorator. cbv beta.
  destruct (web_driver _); [|discriminate].
  intros H.
  apply bind_ok in H. destruct H as (d & st1 & _ & H).
  apply bind_ok in H. destruct H as (u2 & st2 & _ & H).
  apply bind_ok in H. destruct H as (u3 & st3 & _ & H).
  cbv beta in H. unfold assign in H. injection H as <-. reflexivity.
Qed.

Lemma selenium_quit_ok (st st' : SeleniumScraper.t * World.t) :
  SeleniumScraper.quit st = (Ok tt, st') -> web_driver (fst st') = None.
Proof.
  unfold SeleniumScraper.quit, check_web_driver_decorator. cbv beta.
  destruct (web_driver _); [|discriminate].
  intros H.
  apply bind_ok in H. destruct H as (d & st1 & _ & H).
  apply bind_ok in H. destruct H as (d2 & st2 & _ & H).
  apply bind_ok in H. destruct H as (u3 & st3 & _ & H).
  apply bind_ok in H. destruct H as (u4 & st4 & _ & H).
  cbv beta in H. unfold assign in H. injection H as <-. reflexivity.
Qed.

(** C4.  A scraper of either kind has no handle when its constructor
    returns and none when [quit] returns; and on a scraper without a
    handle [retrieve_html] and [quit] raise the error of the guard
    and leave the scraper and the world untouched. *)
Theorem not_started_is_an_error :
  (forall (a : init_args) (w w' : World.t) (s : RequestsScraper.t),
      RequestsScraper.__init__ a w = (Ok s, w') -> web_driver s = None)
  /\ (forall (a : init_args) (b : string) (o : list string) (w w' : World.t)
             (s : SeleniumScraper.t),
         SeleniumScraper.__init__ a b o w = (Ok s, w') -> web_driver s = None)
  /\ (forall st st', RequestsScraper.quit st = (Ok tt, st') -> web_driver (fst st') = None)
  /\ (forall st st', SeleniumScraper.quit st = (Ok tt, st') -> web_driver (fst st') = None)
  /\ (forall (s : RequestsScraper.t) (w : World.t) url wait_seconds flag kwargs,
         web_driver s = None ->
         RequestsScraper.retrieve_html url wait_seconds flag kwargs (s, w)
         = (Raise (AttributeError not_started), (s, w))
         /\ RequestsScraper.quit (s, w) = (Raise (AttributeError not_started), (s, w)))
  /\ (forall (s : SeleniumScraper.t) (w : World.t) url wait_seconds flag kwargs,
         web_driver s = None ->
         SeleniumScraper.retrieve_html url wait_seconds flag kwargs (s, w)
         = (Raise (AttributeError not_started), (s, w))
         /\ SeleniumScraper.quit (s, w) = (Raise (AttributeError not_started), (s, w))).
Proof.
  repeat apply conj.
  - intros a w w' s H. now apply base_init_ok in H.
  - intros a b o w w' s H. apply selenium_init_ok in H.
    destruct H as (base & f & Hb & ->). now apply base_init_ok in Hb.
  - apply requests_quit_ok.
  - apply selenium_quit_ok.
  - intros s w url wait_seconds flag kwargs H.
    split; now apply decorator_not_started.
  - intros s w url wait_seconds flag kwargs H.
    split; now apply decorator_not_started.
Qed.
End Guard.

Ltac run_method :=
  cbv beta iota delta [check_web_driver_decorator bind when the_web_driver self
                       assign time_sleep outcome ret raise fst snd
                       web_driver set_web_driver user_agent screen_resolution
                       random_user_agent_flag random_screen_resolution_flag
                       bs4_parser proxy sub].

Lemma or_empty (s : string) : (if s =? "" then "" else s) = s.
Proof. destruct (String.eqb_spec s ""); congruence. Qed.

Section Requests.
Context {E : Externals}.

(** [RequestsScraper.retrieve_html] on a started scraper, by the
    answer of the server. *)
Lemma requests_retrieve_html_run (s : RequestsScraper.t) (w : World.t) (d d' : Session)
      (url : string) (wait_seconds : Q) (flag : bool) (kwargs : dict)
      (r : result Response) :
  web_driver s = Some d ->
  Qle_bool 0 wait_seconds = true ->
  session_get (if flag then cookies_clear d else d) url kwargs = (r, d') ->
  RequestsScraper.retrieve_html url wait_seconds flag kwargs (s, w)
  = let st' := (set_web_driver (Some d') s, World.emit (World.Slept wait_seconds) w) in
    match r with
    | Raise e => (Raise e, st')
    | Ok resp =>
        if (status_code resp =? codes_ok)%Z
        then (Ok (Some (if negb (contains "<html>" (text resp))
                           && negb (contains "<body" (text resp))
                        then Spec.envelope (text resp) else text resp)), st')
        else match raise_for_status resp with
             | Ok _ => (Ok None, st')
             | Raise e => (Raise e, st')
             end
    end.
Proof.
  intros Hd Hw Hget. destruct s as [ua sr f1 f2 bp px wd sb].
  cbn [web_driver] in Hd. subst wd.
  unfold RequestsScraper.retrieve_html. run_method.
  destruct flag; cbv beta iota; rewrite Hw; cbv beta iota; rewrite Hget;
    (destruct r as [resp | e]; [|reflexivity]);
    rewrite or_empty;
    (destruct (status_code resp =? codes_ok)%Z;
     [destruct (negb _ && negb _); reflexivity
     |destruct (raise_for_status resp); reflexivity]).
Qed.

(** A status of 4xx or 5xx raises [HTTPError] with that status; any
    other status than 200 makes the method return [None]. *)
Lemma requests_retrieve_html_other_status (s : RequestsScraper.t) (w : World.t)
      (d d' : Session) (url : string) (wait_seconds : Q) (flag : bool)
      (kwargs : dict) (resp : Response) :
  web_driver s = Some d ->
  Qle_bool 0 wait_seconds = true ->
  session_get (if flag then cookies_clear d else d) url kwargs = (Ok resp, d') ->
  status_code resp <> codes_ok ->
  fst (RequestsScraper.retrieve_html url wait_seconds flag kwargs (s, w))
  = if ((400 <=? status_code resp) && (status_code resp <? 600))%Z
    then Raise (HTTPError (status_code resp))
    else Ok None.
Proof.
  intros Hd Hw Hget Hst.
  rewrite (requests_retrieve_html_run s w d d' url wait_seconds flag kwargs _ Hd Hw Hget).
  cbv zeta. apply Z.eqb_neq in Hst. rewrite Hst. unfold raise_for_status.
  destruct (_ && _); reflexivity.
Qed.

(** X26.  On a started Direct-Fetch scraper and a response of status
    200, [retrieve_html] returns the body inside the envelope when
    the body contains neither [<html>] nor [<body] (the empty body
    among them), and the body itself when it contains one of them. *)
Theorem requests_retrieve_html_body (s : RequestsScraper.t) (w : World.t)
        (d d' : Session) (url : string) (wait_seconds : Q) (flag : bool)
        (kwargs : dict) (resp : Response) :
  web_driver s = Some d ->
  Qle_bool 0 wait_seconds = true ->
  session_get (if flag then cookies_clear d else d) url kwargs = (Ok resp, d') ->
  status_code resp = codes_ok ->
  let returned := fst (RequestsScraper.retrieve_html url wait_seconds flag kwargs (s, w)) in
  (~ Spec.Substring "<html>" (text resp) /\ ~ Spec.Substring "<body" (text resp) ->
   returned = Ok (Some (Spec.envelope (text resp))))
  /\ (text resp = "" -> returned = Ok (Some (Spec.envelope "")))
  /\ (Spec.Substring "<html>" (text resp) \/ Spec.Substring "<body" (text resp) ->
      returned = Ok (Some (text resp))).
Proof.
  intros Hd Hw Hget Hst returned. subst returned.
  rewrite (requests_retrieve_html_run s w d d' url wait_seconds flag kwargs _ Hd Hw Hget).
  cbv zeta. rewrite Hst, Z.eqb_refl. cbn [fst]. repeat split.
  - intros [Hhtml Hbody].
    apply not_contains_substring in Hhtml, Hbody. now rewrite Hhtml, Hbody.
  - intros Hempty. rewrite Hempty. reflexivity.
  - intros [H | H]; apply contains_substring in H; rewrite H;
      [reflexivity | now rewrite andb_false_r].
Qed.
End Requests.

Section Selenium.
Context {E : Externals}.

(** C3, amended.  On a started Rendered-Fetch scraper whose browser
    loads the page, [retrieve_html] returns the page source of the
    browser passed through [format], that is parsed and serialised
    again by [prettify]; the scraper keeps the browser and the world
    records the wait. *)
Theorem selenium_retrieve_html_formats (s : SeleniumScraper.t) (w : World.t)
        (d d1 d2 : WebDriver) (url : string) (wait_seconds : Q) (flag : bool)
        (kwargs : dict) (src : string) :
  web_driver s = Some d ->
  Qle_bool 0 wait_seconds = true ->
  (if flag then delete_all_cookies d else Ok d) = Ok d1 ->
  driver_get d1 url = Ok d2 ->
  page_source d2 = Ok src ->
  SeleniumScraper.retrieve_html url wait_seconds flag kwargs (s, w)
  = (Ok (format s src),
     (set_web_driver (Some d2) s, World.emit (World.Slept wait_seconds) w)).
Proof.
  intros Hd Hw Hdel Hget Hsrc. destruct s as [ua sr f1 f2 bp px wd sb].
  cbn [web_driver] in Hd. subst wd.
  unfold SeleniumScraper.retrieve_html. run_method. rewrite Hw.
  destruct flag; cbv beta iota; rewrite ?Hdel; cbv beta iota;
    [|injection Hdel as <-]; rewrite Hget; cbv beta iota;
    rewrite Hsrc; reflexivity.
Qed.
End Selenium.

End FetchFacts.

(** ** Runs in the small world *)

Module Runs.
Import Py PyStr Requests Scraping.
Import Reference.

(** The reference parser on the documents of the examples. *)
Lemma parse_hello_world :
  HtmlParser.parse hello_world
  = [Bs4.Tag "html" []
       [Bs4.Tag "body" []
          [Bs4.Tag "script" [] [Bs4.NavigableString "x"];
           Bs4.NavigableString ("Hello" ++ nls 5 ++ "World")]]].
Proof. reflexivity. Qed.

Lemma parse_three_anchors :
  HtmlParser.parse three_anchors
  = [Bs4.Tag "a" [("href", "https://a.com")] [Bs4.NavigableString "A"];
     Bs4.Tag "a" [("href", "/rel")] [Bs4.NavigableString "B"];
     Bs4.Tag "a" [("href", "http://b.com")] [Bs4.NavigableString "C"]].
Proof. reflexivity. Qed.

Lemma parse_head_only :
  HtmlParser.parse head_only
  = [Bs4.Tag "html" []
       [Bs4.Tag "head" [] [Bs4.Tag "title" [] [Bs4.NavigableString "t"]]]].
Proof. reflexivity. Qed.

Lemma format_rendered_site :
  Bs4.prettify (HtmlParser.parse (render site))
  = "<html>" ++ nls 1 ++ " <head>" ++ nls 1 ++ " </head>" ++ nls 1
    ++ " <body>" ++ nls 1 ++ "  <p>" ++ nls 1 ++ "   Hi" ++ nls 1
    ++ "  </p>" ++ nls 1 ++ " </body>" ++ nls 1 ++ "</html>" ++ nls 1.
Proof. reflexivity. Qed.

(** The constructor, called with its defaults, builds [requests_scraper]. *)
Lemma requests_init_run :
  fst (RequestsScraper.__init__ (E := externals) default_args world0) = Ok requests_scraper.
Proof. reflexivity. Qed.

Lemma requests_start_run :
  fst (snd (RequestsScraper.start (E := externals) (requests_scraper, world0)))
  = requests_started.
Proof. reflexivity. Qed.

Lemma selenium_init_run :
  fst (SeleniumScraper.__init__ (E := externals) default_args "chrome"
                                SeleniumScraper.default_options world0)
  = Ok selenium_scraper.
Proof. reflexivity. Qed.

Lemma selenium_start_run :
  fst (snd (SeleniumScraper.start (E := externals) (selenium_scraper, world0)))
  = selenium_started.
Proof. reflexivity. Qed.

(** A whole life of a Direct-Fetch scraper: built, started, used,
    quit; after that [retrieve_html] is refused. *)
Lemma requests_lifecycle_run :
  let st1 := snd (RequestsScraper.start (E := externals) (requests_scraper, world0)) in
  let page := RequestsScraper.retrieve_html (E := externals) site 1 true [] st1 in
  let st3 := snd (RequestsScraper.quit (E := externals) (snd page)) in
  fst page = Ok (Some (text (serve site)))
  /\ web_driver (fst st3) = None
  /\ fst (RequestsScraper.retrieve_html (E := externals) site 1 true [] st3)
     = Raise (AttributeError not_started).
Proof. repeat split. Qed.

(** C2, as the code has it.  The page [empty] answers with status 204:
    the started Direct-Fetch scraper neither raises nor returns a
    string, [retrieve_html] returns [None]. *)
Theorem requests_retrieve_html_no_content :
  status_code (serve (site ++ "empty")) = 204%Z
  /\ fst (RequestsScraper.retrieve_html (E := externals) (site ++ "empty") 1 false []
                                        (requests_started, world0))
     = Ok None.
Proof. split; reflexivity. Qed.

(** C6, as the code has it.  A server answers with status 203, a
    success status, and a body that contains [<html>]: the started
    Direct-Fetch scraper does not return the body, [retrieve_html]
    returns [None].  Only status 200 reaches the lines that return
    the body or wrap it; every other status that is no 4xx or 5xx
    runs into the missing case of C2. *)
Theorem requests_retrieve_html_success_not_ok :
  status_code More.cached_response = 203%Z
  /\ contains "<html>" (text More.cached_response) = true
  /\ fst (session_get (Externals := More.cached) More.session0 site [])
     = Ok More.cached_response
  /\ fst (RequestsScraper.retrieve_html (E := More.cached) site 1 false []
                                        (requests_started, world0))
     = Ok None
  /\ fst (RequestsScraper.retrieve_html (E := More.cached) site 1 false []
                                        (requests_started, world0))
     <> Ok (Some (text More.cached_response)).
Proof. repeat split; try reflexivity. discriminate. Qed.

(** C3 fails: the browser shows [render site], and what the started
    Rendered-Fetch scraper returns for [site] is another text. *)
Lemma selenium_retrieve_html_not_verbatim :
  option_map (page_source (Externals := externals))
             (web_driver
                (fst (snd (SeleniumScraper.retrieve_html (E := externals) site 1 false []
                                                         (selenium_started, world0)))))
  = Some (Ok (render site))
  /\ fst (SeleniumScraper.retrieve_html (E := externals) site 1 false []
                                        (selenium_started, world0))
     <> Ok (render site).
Proof. split; [reflexivity | vm_compute; discriminate]. Qed.

(** C8 fails: the empty string has no colon, and the constructor
    accepts it as a proxy. *)
Lemma empty_proxy_accepted :
  count_char ":"%char "" <> 1
  /\ fst (RequestsScraper.__init__ (E := externals) (with_proxy (Some "") default_args) world0)
     = Ok (set_proxy (Some "") requests_scraper).
Proof. split; [discriminate | reflexivity]. Qed.

Lemma extract_text_no_body_witness :
  extract_text (E := externals) requests_scraper head_only = "".
Proof.
  apply HtmlFacts.extract_text_no_body.
  intros [n [Hin Htag]]. vm_compute in Hin.
  repeat (destruct Hin as [Hin | Hin]; [subst n; discriminate Htag|]).
  exact Hin.
Defined.

Lemma invalid_proxy_rejected_witness :
  RequestsScraper.__init__ (E := externals) (with_proxy (Some "badformat") default_args) world0
  = (Raise (ValueError invalid_proxy_message), world0)
  /\ SeleniumScraper.__init__ (E := externals) (with_proxy (Some "badformat") default_args)
                              "chrome" SeleniumScraper.default_options world0
     = (Raise (ValueError invalid_proxy_message), world0).
Proof.
  apply (SessionFacts.invalid_proxy_rejected
           (with_proxy (Some "badformat") default_args) world0 "badformat").
  - reflexivity.
  - discriminate.
  - vm_compute. lia.
Defined.

(** An explicit screen resolution that was kept is not the identity
    of the scraper built with the flags at their defaults. *)
Lemma kept_resolution_is_not_the_identity :
  ~ Spec.identity_after (E := externals)
      (with_identity (Some "MyAgent/1.0") (Some "1366,768") default_args) world0
      (Some "Mozilla/5.0 (X11; Linux x86_64)") (Some "1366,768").
Proof.
  intros (g & Hua & _ & Hsr & _).
  destruct (Hua eq_refl) as (v & Hdraw & _ & _).
  injection Hdraw as _ <-.
  destruct (Hsr eq_refl) as (v' & g' & Hchoice & _ & Hv).
  injection Hv as <-. injection Hchoice as Hchoice _. discriminate Hchoice.
Qed.

Lemma explicit_identity_discarded_witness :
  Spec.identity_after (E := externals)
    (with_identity (Some "MyAgent/1.0") (Some "800,600") default_args) world0
    (Some "Mozilla/5.0 (X11; Linux x86_64)") (Some "1920,1080").
Proof.
  destruct (SessionFacts.explicit_identity_discarded (E := externals)) as (_ & _ & H).
  destruct (H (with_identity (Some "MyAgent/1.0") (Some "800,600") default_args)
              world0
              (snd (RequestsScraper.__init__ (E := externals) default_args world0))
              requests_scraper selenium_scraper "chrome" [])
    as (Hrequests & _).
  apply Hrequests. reflexivity.
Defined.

Lemma not_started_is_an_error_witness :
  RequestsScraper.retrieve_html (E := externals) site 1 false [] (requests_scraper, world0)
  = (Raise (AttributeError not_started), (requests_scraper, world0))
  /\ RequestsScraper.quit (E := externals) (requests_scraper, world0)
     = (Raise (AttributeError not_started), (requests_scraper, world0)).
Proof.
  destruct (FetchFacts.not_started_is_an_error (E := externals)) as (_ & _ & _ & _ & H & _).
  apply H. reflexivity.
Defined.

Lemma requests_retrieve_html_body_witness :
  fst (RequestsScraper.retrieve_html (E := externals) (site ++ "plain") 1 false []
                                     (requests_started, world0))
  = Ok (Some (Spec.envelope "plain words")).
Proof.
  destruct (FetchFacts.requests_retrieve_html_body
              (E := externals) requests_started world0
              {| proxies := [];
                 headers := [("User-Agent", "Mozilla/5.0 (X11; Linux x86_64)")];
                 cookies := [] |}
              {| proxies := [];
                 headers := [("User-Agent", "Mozilla/5.0 (X11; Linux x86_64)")];
                 cookies := [] |}
              (site ++ "plain") 1 false [] (serve (site ++ "plain"))
              eq_refl eq_refl eq_refl eq_refl) as (H & _).
  apply H. split; apply FetchFacts.not_contains_substring; reflexivity.
Defined.

Lemma selenium_retrieve_html_formats_witness :
  fst (SeleniumScraper.retrieve_html (E := externals) site 1 false []
                                     (selenium_started, world0))
  = Ok (format (E := externals) selenium_started (render site)).
Proof.
  pose (d := {| name := "chrome";
                arguments := SeleniumScraper.options (sub selenium_scraper);
                shown := "<html><head></head><body></body></html>";
                jar := [] |}).
  pose (d2 := {| name := "chrome";
                 arguments := SeleniumScraper.options (sub selenium_scraper);
                 shown := render site;
                 jar := [] |}).
  rewrite (FetchFacts.selenium_retrieve_html_formats
             (E := externals) selenium_started world0 d d d2 site 1 false [] (render site)
             eq_refl eq_refl eq_refl eq_refl eq_refl).
  reflexivity.
Defined.

End Runs.

(** ** More on the whitespace-collapse step *)

Module TextMore.
Import PyStr PyStrFacts Text TextFacts More.

Lemma without_lf_nls (n : nat) (t : string) : without_lf (nls n ++ t) = without_lf t.
Proof. induction n as [|n IH]; [reflexivity | exact IH]. Qed.

Lemma without_lf_map_runs (f : nat -> nat) (s : string) :
  forall k, without_lf (map_runs f k s) = without_lf s.
Proof.
  induction s as [|c s IH]; intros k; cbn [map_runs without_lf].
  - rewrite <- (append_nil_r (nls (f k))). apply without_lf_nls.
  - destruct (Ascii.eqb c LF) eqn:Hc; [apply IH|].
    rewrite without_lf_nls. cbn [without_lf]. now rewrite Hc, IH.
Qed.

Lemma count_lf_nls (n : nat) (t : string) :
  count_char LF (nls n ++ t) = n + count_char LF t.
Proof. induction n as [|n IH]; [reflexivity | cbn; now rewrite IH]. Qed.

Lemma count_lf_map_runs (f : nat -> nat) (s : string) :
  (forall n, f n <= n) ->
  forall k, count_char LF (map_runs f k s) <= k + count_char LF s.
Proof.
  intros Hf. induction s as [|c s IH]; intros k; cbn [map_runs].
  - rewrite <- (append_nil_r (nls (f k))), count_lf_nls. cbn. specialize (Hf k). lia.
  - cbn [count_char]. destruct (Ascii.eqb c LF) eqn:Hc.
    + specialize (IH (S k)). lia.
    + rewrite count_lf_nls. cbn [count_char]. rewrite Hc.
      specialize (IH 0). specialize (Hf k). lia.
Qed.

(** The pass over the runs goes through a character that is no line feed. *)
Lemma map_runs_split (f : nat -> nat) (c : ascii) (a b : string) :
  Ascii.eqb c LF = false ->
  forall k, map_runs f k (a ++ String c b) = map_runs f k a ++ String c (map_runs f 0 b).
Proof.
  intros Hc. induction a as [|x a IH]; intros k; cbn [append map_runs].
  - now rewrite Hc.
  - destruct (Ascii.eqb x LF); [apply IH|].
    rewrite IH, append_assoc. reflexivity.
Qed.

Lemma substring_suffix (needle a b : string) :
  Spec.Substring needle b -> Spec.Substring needle (a ++ b).
Proof.
  intros (before & after & ->). exists (a ++ before), after.
  now rewrite append_assoc.
Qed.

Lemma contains_suffix (needle a b : string) :
  contains needle (a ++ b) = false -> contains needle b = false.
Proof.
  rewrite !FetchFacts.not_contains_substring. intros H Hb.
  apply H. now apply substring_suffix.
Qed.

Lemma squeeze_fixed (s : string) :
  forall k, k <= 1 -> contains (nls 2) (nls k ++ s) = false ->
            map_runs (Nat.min 1) k s = nls k ++ s.
Proof.
  induction s as [|c s IH]; intros k Hk Hno; cbn [map_runs].
  - rewrite append_nil_r. f_equal. lia.
  - destruct (Ascii.eqb c LF) eqn:Hc.
    + apply Ascii.eqb_eq in Hc. subst c.
      destruct k as [|k]; [|destruct k; [|lia]].
      2:{ apply FetchFacts.not_contains_substring in Hno.
          exfalso. apply Hno. now exists "", s. }
      apply (IH 1); [lia | exact Hno].
    + rewrite (IH 0); [|lia|].
      * replace (Nat.min 1 k) with k by lia. reflexivity.
      * apply (contains_suffix _ (nls k ++ String c "")).
        rewrite append_assoc. exact Hno.
Qed.

(** X1.  The three substitutions of [_process_text] have the effect
    of the single substitution [re.sub("\n{2,}", "\n", text)]: every
    maximal run of line feeds becomes one line feed and nothing else
    changes. *)
Theorem process_text_single_substitution (s : string) :
  _process_text s = re_sub_newlines 2 None (nls 1) s
  /\ _process_text s = map_runs (Nat.min 1) 0 s.
Proof.
  split; [|apply process_text_squeeze].
  rewrite process_text_squeeze. unfold squeeze, re_sub_newlines. symmetry.
  apply (re_sub_map_runs 2 None 1 (Nat.min 1)) with (k := 0); unfold greedy.
  - lia.
  - intros k Hk. lia.
  - intros k Hk. lia.
  - intros k Hk. lia.
Qed.

(** X2.  [_process_text] only removes line feeds: the characters
    other than line feeds are kept, all of them and in their order,
    and there are never more line feeds after than before. *)
Theorem process_text_keeps_other_characters (s : string) :
  without_lf (_process_text s) = without_lf s
  /\ count_char LF (_process_text s) <= count_char LF s.
Proof.
  rewrite process_text_squeeze. unfold squeeze. split.
  - apply without_lf_map_runs.
  - apply (count_lf_map_runs (Nat.min 1) s); intros n; lia.
Qed.

(** X3.  The texts [_process_text] returns unchanged are exactly the
    texts that have no two line feeds in a row. *)
Theorem process_text_fixed_points (s : string) :
  _process_text s = s <-> contains (nls 2) s = false.
Proof.
  split.
  - intros H. rewrite <- H. apply process_text_no_blank_line.
  - intros H. rewrite process_text_squeeze. apply (squeeze_fixed s 0); [lia | exact H].
Qed.

(** X4.  [_process_text] works piece by piece: around any character
    that is no line feed, the text before it and the text after it are
    processed on their own. *)
Theorem process_text_around_character (a b : string) (c : ascii) :
  c <> LF ->
  _process_text (a ++ String c b) = _process_text a ++ String c (_process_text b).
Proof.
  intros Hc. rewrite !process_text_squeeze. unfold squeeze.
  apply map_runs_split. now apply Ascii.eqb_neq.
Qed.

End TextMore.

(** ** More on extraction *)

Module HtmlMore.
Import Py PyStr PyStrFacts Bs4 Scraping More.





Section WithExternals.
Context {E : Externals} {D X : Type}.


(** X6.  Whatever the document and the parser, the text
    [extract_text] returns has no empty line: no two line feeds in a
    row. *)
Theorem extract_text_no_blank_line (s : Scraper D X) (html_body : string) :
  contains (nls 2) (extract_text s html_body) = false.
Proof.
  unfold extract_text. destruct (find "body" _); [|reflexivity].
  apply TextFacts.process_text_no_blank_line.
Qed.

(** X7.  Every link [extract_links] returns begins with [http] and is
    the [href] of an anchor element of the document; there are never
    more links than anchors. *)
Theorem extract_links_sound (s : Scraper D X) (html_body : string) :
  let tree := BeautifulSoup html_body (bs4_parser s) in
  (forall link, In link (extract_links s html_body) ->
                String.prefix "http" link = true
                /\ exists tag, In tag (find_all "a" tree) /\ get tag "href" = Some link)
  /\ List.length (extract_links s html_body) <= List.length (find_all "a" tree).
Proof.
  intros tree. unfold extract_links. fold tree. rewrite HtmlFacts.links_loop.
  cbn [app]. generalize (find_all "a" tree) as tags. intros tags. split.
  - intros link Hin. apply in_flat_map in Hin. destruct Hin as (tag & Htag & Hin).
    unfold Spec.kept_link in Hin.
    destruct (get tag "href") as [l|] eqn:Hget; [|contradiction].
    destruct (negb (l =? "") && startswith l "http") eqn:Hkeep; [|contradiction].
    destruct Hin as [<- | []]. apply andb_true_iff in Hkeep.
    split; [apply Hkeep | now exists tag].
  - induction tags as [|tag tags IH]; [reflexivity|].
    cbn [flat_map List.length]. rewrite length_app.
    assert (List.length (Spec.kept_link tag) <= 1).
    { unfold Spec.kept_link. destruct (get tag "href"); [|cbn; lia].
      destruct (_ && _); cbn; lia. }
    lia.
Qed.
End WithExternals.

End HtmlMore.

(** ** More on construction *)

Module SessionMore.
Import Py PyStr Requests Scraping SessionFacts More.
Local Open Scope py_scope.

Lemma valid_proxy (proxy : option string) :
  (forall p, proxy = Some p -> p = "" \/ count_char ":"%char p = 1) ->
  invalid_proxy proxy = false.
Proof.
  intros H. destruct proxy as [p|]; [|reflexivity].
  destruct (invalid_proxy (Some p)) eqn:Hbad; [|reflexivity].
  apply invalid_proxy_colons in Hbad. destruct (H p eq_refl); tauto.
Qed.

(** A draw of [random.choices] that returns has advanced the
    generator by one step. *)
Lemma choices1_advances (population : list string) (weights : list Q)
      (g g' : PyRandom.Rng) (x : string) :
  PyRandom.choices1 population weights g = (Ok x, g') -> g' = PyRandom.advance g.
Proof.
  unfold PyRandom.choices1.
  destruct (negb _); [discriminate|].
  destruct (last _ _) as [total|]; [|discriminate].
  destruct (Qle_bool total 0); [discriminate|].
  unfold PyRandom.random.
  destruct (nth_error population _) as [y|]; [|discriminate].
  intros H. now injection H as _ <-.
Qed.

Section Construction.
Context {E : Externals}.

(** X8.  With both randomize flags off and a proxy that is absent,
    empty or has exactly one colon, the constructor returns a
    scraper that holds the arguments as they were passed, not
    started, and it leaves the world alone: nothing is drawn,
    nothing is logged. *)
Theorem init_without_randomness (a : init_args) (w : World.t) :
  (forall p, arg_proxy a = Some p -> p = "" \/ count_char ":"%char p = 1) ->
  arg_random_user_agent_flag a = false ->
  arg_random_screen_resolution_flag a = false ->
  RequestsScraper.__init__ a w
  = (Ok {| user_agent := arg_user_agent a;
           screen_resolution := arg_screen_resolution a;
           random_user_agent_flag := false;
           random_screen_resolution_flag := false;
           bs4_parser := arg_bs4_parser a;
           proxy := arg_proxy a;
           web_driver := None;
           sub := tt |}, w).
Proof.
  intros Hproxy Hua Hsr.
  unfold RequestsScraper.__init__, BaseScraper.__init__, construct.
  rewrite (valid_proxy _ Hproxy), Hua, Hsr. reflexivity.
Qed.

(** X9.  [refresh_screen_resolution] never fails: it sets
    [screen_resolution] to one of the five entries of
    [MOST_COMMON_SCREEN_RESOLUTIONS], changes no other attribute of
    the scraper, takes one draw and logs one line. *)
Theorem refresh_screen_resolution_returns {D X} (s : Scraper D X) (w : World.t) :
  exists sr,
    In sr MOST_COMMON_SCREEN_RESOLUTIONS
    /\ refresh_screen_resolution (s, w)
       = (Ok tt,
          (set_screen_resolution (Some sr) s,
           World.emit (World.Logged ("current screen resolution: " ++ sr))
                      (World.with_rng w (PyRandom.advance (World.rng w))))).
Proof.
  destruct (choice_returns "1920,1080" ["1366,768"; "1536,864"; "1440,900"; "1600,900"]
                           (World.rng w)) as [sr Hsr].
  exists sr. split; [exact (choice_member MOST_COMMON_SCREEN_RESOLUTIONS _ _ _ Hsr)|].
  unfold refresh_screen_resolution, with_random, bind, assign, logger_info.
  cbn [fst snd]. unfold MOST_COMMON_SCREEN_RESOLUTIONS. now rewrite Hsr.
Qed.

(** X10.  Whenever [refresh_user_agent] returns, it has set
    [user_agent] to an entry of the catalog, changed no other
    attribute of the scraper, taken one draw and logged one line. *)
Theorem refresh_user_agent_sets_catalog_entry {D X} (s : Scraper D X) (w : World.t)
        (st' : Scraper D X * World.t) :
  refresh_user_agent (s, w) = (Ok tt, st') ->
  exists ua,
    In ua MOST_COMMON_USER_AGENTS_STRINGS
    /\ st' = (set_user_agent (Some ua) s,
              World.emit (World.Logged ("current user agent: " ++ ua))
                         (World.with_rng w (PyRandom.advance (World.rng w)))).
Proof.
  intros H. apply refresh_user_agent_ok in H. destruct H as (ua & g & Hdraw & ->).
  exists ua. split; [eapply choices1_member, Hdraw|].
  now rewrite (choices1_advances _ _ _ _ _ Hdraw).
Qed.

(** X11.  On a catalog that cannot be drawn from,
    [refresh_user_agent] raises and leaves the scraper and the world
    as they were: [ValueError] when weights and entries differ in
    number, [IndexError] when the catalog is empty, [ValueError]
    when the weights do not sum to a positive total. *)
Theorem refresh_user_agent_raises {D X} (s : Scraper D X) (w : World.t) :
  let strings := MOST_COMMON_USER_AGENTS_STRINGS in
  let weights := MOST_COMMON_USER_AGENTS_WEIGHTS in
  (List.length weights <> List.length strings ->
   refresh_user_agent (s, w)
   = (Raise (ValueError "The number of weights does not match the population"), (s, w)))
  /\ (strings = [] -> weights = [] ->
      refresh_user_agent (s, w) = (Raise (IndexError "list index out of range"), (s, w)))
  /\ (forall total,
         List.length weights = List.length strings ->
         List.last (map Some (PyRandom.accumulate weights)) None = Some total ->
         Qle_bool total 0 = true ->
         refresh_user_agent (s, w)
         = (Raise (ValueError "Total of weights must be greater than zero"), (s, w))).
Proof.
  intros strings weights.
  unfold refresh_user_agent, with_random, bind. cbn [fst snd].
  fold strings weights. unfold PyRandom.choices1.
  rewrite accumulate_length. repeat split.
  - intros Hlen. apply Nat.eqb_neq in Hlen. rewrite Hlen. cbn [negb].
    destruct w as [g t]. reflexivity.
  - intros Hs Hw. rewrite Hs, Hw. cbn. destruct w as [g t]. reflexivity.
  - intros total Hlen Htotal Hneg. rewrite Hlen, Nat.eqb_refl. cbn [negb].
    rewrite Htotal, Hneg. destruct w as [g t]. reflexivity.
Qed.

(** X12.  A browser name written in ASCII that is neither [chrome]
    nor [firefox] once put in lower case and stripped makes the
    constructor of [SeleniumScraper] raise [ValueError]; by then the
    constructor of the base class has run, so the world is the one
    it left. *)
Theorem selenium_init_invalid_browser (a : init_args) (browser_name : string)
        (opts : list string) (w w' : World.t) (base : Scraper WebDriver unit) :
  is_ascii browser_name = true ->
  BaseScraper.__init__ a w = (Ok base, w') ->
  Bs4.strip (Bs4.lower browser_name) <> "chrome" ->
  Bs4.strip (Bs4.lower browser_name) <> "firefox" ->
  SeleniumScraper.__init__ a browser_name opts w
  = (Raise (ValueError ("Invalid browser: '" ++ Bs4.strip (Bs4.lower browser_name)
                        ++ "'! " ++ String LF
                        "Valid browsers values are: 'chrome' or 'firefox'!")), w').
Proof.
  intros _ Hbase Hc Hf. unfold SeleniumScraper.__init__.
  rewrite (bind_step _ _ _ _ _ Hbase).
  apply String.eqb_neq in Hc, Hf. rewrite Hc, Hf. reflexivity.
Qed.

(** X13.  When the constructor of [SeleniumScraper] returns for a
    browser name written in ASCII, the browser it holds is [chrome]
    or [firefox], the name passed in lower case and stripped, and its
    options are the options passed, in their order, followed by the
    window size, the user agent and the proxy of the scraper, each
    only when the scraper has one. *)
Theorem selenium_init_options (a : init_args) (browser_name : string)
        (opts : list string) (w w' : World.t) (s : SeleniumScraper.t) :
  is_ascii browser_name = true ->
  SeleniumScraper.__init__ a browser_name opts w = (Ok s, w') ->
  SeleniumScraper.browser (sub s) = Bs4.strip (Bs4.lower browser_name)
  /\ (SeleniumScraper.browser (sub s) = "chrome"
      \/ SeleniumScraper.browser (sub s) = "firefox")
  /\ SeleniumScraper.options (sub s)
     = (opts
        ++ SeleniumScraper.option_if (screen_resolution s) "--window-size="
        ++ SeleniumScraper.option_if (user_agent s) "--user-agent="
        ++ SeleniumScraper.option_if (proxy s) "--proxy-server=")%list.
Proof.
  unfold SeleniumScraper.__init__. intros _ H.
  apply bind_ok in H. destruct H as (base & w1 & _ & H).
  destruct (Bs4.strip (Bs4.lower browser_name) =? "chrome") eqn:Hc.
  - cbn [orb] in H. unfold ret in H. injection H as <- <-.
    apply String.eqb_eq in Hc. cbn. rewrite Hc. auto.
  - destruct (Bs4.strip (Bs4.lower browser_name) =? "firefox") eqn:Hf.
    + cbn [orb] in H. unfold ret in H. injection H as <- <-.
      apply String.eqb_eq in Hf. cbn. rewrite Hf. auto.
    + discriminate H.
Qed.
End Construction.

End SessionMore.

(** ** More on sessions and fetching *)

Module FetchMore.
Import Py PyStr PyStrFacts Requests Scraping SessionFacts FetchFacts More.
Local Open Scope py_scope.

Lemma len_app (a b : string) : len (a ++ b) = len a + len b.
Proof.
  induction a as [|c a IH]; [reflexivity|]. cbn [append len]. rewrite IH. lia.
Qed.

Lemma endswith_app (a p : string) : endswith (a ++ p) p = true.
Proof.
  induction a as [|c a IH]; cbn [append].
  - destruct p; cbn [endswith]; now rewrite String.eqb_refl.
  - cbn [endswith]. rewrite IH. apply orb_true_r.
Qed.

Lemma rstrip_app_char (a : string) (c : ascii) :
  Bs4.is_space c = false -> Bs4.rstrip (a ++ String c "") = a ++ String c "".
Proof.
  intros Hc. induction a as [|x a IH]; cbn [append Bs4.rstrip].
  - now rewrite Hc.
  - rewrite IH. destruct a; reflexivity.
Qed.

Lemma strip_bracketed (middle : string) :
  Bs4.strip (String "<"%char (middle ++ ">")) = String "<"%char (middle ++ ">").
Proof.
  unfold Bs4.strip. cbn [Bs4.lstrip]. change (Bs4.is_space "<"%char) with false. cbv iota.
  change (String "<"%char (middle ++ ">")) with (String "<"%char middle ++ String ">"%char "").
  now apply rstrip_app_char.
Qed.

(** The envelope begins with [<] and ends with [>]. *)
Lemma envelope_bracketed (body : string) :
  Spec.envelope body
  = String "<"%char (("html>" ++ String LF "  <body>" ++ String LF body
                      ++ String LF "  </body>" ++ String LF "</html") ++ ">").
Proof.
  unfold Spec.envelope. cbn [append]. rewrite append_assoc. reflexivity.
Qed.

Lemma check_envelope (body : string) :
  check_html_source (Some (Spec.envelope body)) = true.
Proof.
  unfold check_html_source. apply andb_true_iff. split.
  - unfold Spec.envelope. apply Nat.leb_le.
    change ("<html>" ++ String LF "  <body>" ++ String LF body
            ++ String LF "  </body>" ++ String LF "</html>")
      with ("<html>" ++ (String LF "  <body>" ++ String LF body
                         ++ String LF "  </body>" ++ String LF "</html>")).
    rewrite len_app. replace (len "<html>") with 6 by reflexivity. lia.
  - rewrite envelope_bracketed, strip_bracketed.
    apply andb_true_iff. split; [reflexivity|].
    match goal with
    | |- endswith (String ?c (?m ++ ?p)) ?p = true =>
        change (String c (m ++ p)) with (String c m ++ p)
    end.
    apply endswith_app.
Qed.

Section Requests.
Context {E : Externals}.

(** X14.  [RequestsScraper.start] never fails and leaves the world
    alone.  The session it installs keeps the cookies of a fresh
    session; when the scraper has a user agent the headers of the
    session are that [User-Agent] and nothing else, and when it has
    a proxy the two schemes [http] and [https] go through it. *)
Theorem requests_start_session (s : RequestsScraper.t) (w : World.t) :
  exists session,
    RequestsScraper.start (s, w) = (Ok tt, (set_web_driver (Some session) s, w))
    /\ cookies session = cookies requests_session
    /\ headers session
       = (if truthy (user_agent s)
          then [("User-Agent", match user_agent s with Some ua => ua | None => "" end)]
          else headers requests_session)
    /\ proxies session
       = (if truthy (proxy s)
          then let p := match proxy s with Some p => p | None => "" end in
               [("http", "http://" ++ p); ("https", "https://" ++ p)]
          else proxies requests_session).
Proof.
  destruct s as [ua sr f1 f2 bp px wd sb].
  unfold RequestsScraper.start. run_method.
  destruct (truthy px) eqn:Hpx, (truthy ua) eqn:Hua; cbv beta iota;
    eexists; (split; [reflexivity|]); cbn; auto.
Qed.

(** X15.  On a started Direct-Fetch scraper, a response with a
    status from 400 to 599 makes [retrieve_html] raise [HTTPError]
    with that status; the scraper keeps the session as the request
    left it. *)
Theorem requests_retrieve_html_error_status (s : RequestsScraper.t) (w : World.t)
        (d d' : Session) (url : string) (wait_seconds : Q) (flag : bool)
        (kwargs : dict) (resp : Response) :
  web_driver s = Some d ->
  Qle_bool 0 wait_seconds = true ->
  session_get (if flag then cookies_clear d else d) url kwargs = (Ok resp, d') ->
  (400 <= status_code resp < 600)%Z ->
  RequestsScraper.retrieve_html url wait_seconds flag kwargs (s, w)
  = (Raise (HTTPError (status_code resp)),
     (set_web_driver (Some d') s, World.emit (World.Slept wait_seconds) w)).
Proof.
  intros Hd Hw Hget Hst.
  rewrite (requests_retrieve_html_run s w d d' url wait_seconds flag kwargs _ Hd Hw Hget).
  cbv zeta. unfold codes_ok, raise_for_status.
  destruct (Z.eqb_spec (status_code resp) 200) as [H200 | _]; [lia|].
  replace ((400 <=? status_code resp)%Z) with true by (symmetry; apply Z.leb_le; lia).
  replace ((status_code resp <? 600)%Z) with true by (symmetry; apply Z.ltb_lt; lia).
  reflexivity.
Qed.

(** X16.  On a started Direct-Fetch scraper and a response of
    status 200, what [retrieve_html] returns is a string that
    contains [<html>] or [<body], whatever the body was. *)
Theorem requests_retrieve_html_has_markup (s : RequestsScraper.t) (w : World.t)
        (d d' : Session) (url : string) (wait_seconds : Q) (flag : bool)
        (kwargs : dict) (resp : Response) :
  web_driver s = Some d ->
  Qle_bool 0 wait_seconds = true ->
  session_get (if flag then cookies_clear d else d) url kwargs = (Ok resp, d') ->
  status_code resp = codes_ok ->
  exists html,
    fst (RequestsScraper.retrieve_html url wait_seconds flag kwargs (s, w)) = Ok (Some html)
    /\ (Spec.Substring "<html>" html \/ Spec.Substring "<body" html).
Proof.
  intros Hd Hw Hget Hst.
  rewrite (requests_retrieve_html_run s w d d' url wait_seconds flag kwargs _ Hd Hw Hget).
  cbv zeta. rewrite Hst, Z.eqb_refl. cbn [fst].
  destruct (contains "<html>" (text resp)) eqn:Hhtml.
  - exists (text resp). split; [reflexivity|]. left. now apply contains_substring.
  - destruct (contains "<body" (text resp)) eqn:Hbody.
    + exists (text resp). split; [reflexivity|]. right. now apply contains_substring.
    + exists (Spec.envelope (text resp)). split; [reflexivity|].
      left. exists "". eexists. reflexivity.
Qed.

(** X17.  On a started Direct-Fetch scraper and a response of
    status 200 whose body contains neither [<html>] nor [<body], what
    [retrieve_html] returns passes [check_html_source] of the tests:
    a string of at least six characters that, stripped, begins with
    [<] and ends with [>]. *)
Theorem requests_retrieve_html_passes_check (s : RequestsScraper.t) (w : World.t)
        (d d' : Session) (url : string) (wait_seconds : Q) (flag : bool)
        (kwargs : dict) (resp : Response) :
  web_driver s = Some d ->
  Qle_bool 0 wait_seconds = true ->
  session_get (if flag then cookies_clear d else d) url kwargs = (Ok resp, d') ->
  status_code resp = codes_ok ->
  contains "<html>" (text resp) = false ->
  contains "<body" (text resp) = false ->
  exists returned,
    fst (RequestsScraper.retrieve_html url wait_seconds flag kwargs (s, w)) = Ok returned
    /\ check_html_source returned = true.
Proof.
  intros Hd Hw Hget Hst Hhtml Hbody.
  rewrite (requests_retrieve_html_run s w d d' url wait_seconds flag kwargs _ Hd Hw Hget).
  cbv zeta. rewrite Hst, Z.eqb_refl, Hhtml, Hbody. cbn [fst negb andb].
  eexists. split; [reflexivity | apply check_envelope].
Qed.

End Requests.

Section Quit.
Context {E : Externals}.

(** X19.  [quit] of a started scraper of either kind drops the handle
    exactly when it returns: when clearing the cookies or closing
    fails, [quit] raises and the scraper still holds a handle. *)
Theorem quit_drops_handle_on_success :
  (forall (s s' : RequestsScraper.t) (w w' : World.t) (d : Session) (r : result unit),
      web_driver s = Some d ->
      RequestsScraper.quit (s, w) = (r, (s', w')) ->
      (r = Ok tt <-> web_driver s' = None))
  /\ (forall (s s' : SeleniumScraper.t) (w w' : World.t) (d : WebDriver) (r : result unit),
         web_driver s = Some d ->
         SeleniumScraper.quit (s, w) = (r, (s', w')) ->
         (r = Ok tt <-> web_driver s' = None)).
Proof.
  split.
  - intros s s' w w' d r Hd. destruct s as [ua sr f1 f2 bp px wd sb].
    cbn [web_driver] in Hd. subst wd.
    unfold RequestsScraper.quit. run_method.
    destruct (session_close (cookies_clear d)) as [[] | e];
      intros H; injection H as <- <- _; cbn; split; congruence.
  - intros s s' w w' d r Hd. destruct s as [ua sr f1 f2 bp px wd sb].
    cbn [web_driver] in Hd. subst wd.
    unfold SeleniumScraper.quit. run_method.
    destruct (delete_all_cookies d) as [d1 | e]; cbv beta iota.
    + destruct (driver_quit d1) as [[] | e];
        intros H; injection H as <- <- _; cbn; split; congruence.
    + intros H; injection H as <- <- _; cbn; split; congruence.
Qed.

(** X25.  On a scraper that is not started, [start] followed by
    [quit] of a Direct-Fetch scraper gives the scraper back as it
    was, attribute by attribute, provided closing the session
    succeeds; the world is not touched. *)
Theorem requests_start_quit_round_trip (s : RequestsScraper.t) (w : World.t) :
  web_driver s = None ->
  (forall session, session_close session = Ok tt) ->
  RequestsScraper.quit (snd (RequestsScraper.start (s, w))) = (Ok tt, (s, w)).
Proof.
  intros Hd Hclose. destruct s as [ua sr f1 f2 bp px wd sb].
  cbn [web_driver] in Hd. subst wd.
  unfold RequestsScraper.start, RequestsScraper.quit. run_method.
  destruct (truthy px), (truthy ua); cbv beta iota; rewrite Hclose; reflexivity.
Qed.
End Quit.

Section Selenium.
Context {E : Externals}.


(** X21.  When the browser fails to load the page, [retrieve_html]
    of a started Rendered-Fetch scraper raises what the browser
    raised: nothing is returned, there is no second attempt, and the
    scraper keeps the browser it had. *)
Theorem selenium_retrieve_html_navigation_fails (s : SeleniumScraper.t) (w : World.t)
        (d d1 : WebDriver) (url : string) (wait_seconds : Q) (flag : bool)
        (kwargs : dict) (e : exn) :
  web_driver s = Some d ->
  Qle_bool 0 wait_seconds = true ->
  (if flag then delete_all_cookies d else Ok d) = Ok d1 ->
  driver_get d1 url = Raise e ->
  SeleniumScraper.retrieve_html url wait_seconds flag kwargs (s, w)
  = (Raise e, (set_web_driver (Some d1) s, World.emit (World.Slept wait_seconds) w)).
Proof.
  intros Hd Hw Hdel Hget. destruct s as [ua sr f1 f2 bp px wd sb].
  cbn [web_driver] in Hd. subst wd.
  unfold SeleniumScraper.retrieve_html. run_method. rewrite Hw.
  destruct flag; cbv beta iota; rewrite ?Hdel; cbv beta iota;
    [|injection Hdel as <-]; rewrite Hget; reflexivity.
Qed.
End Selenium.

End FetchMore.

(** ** Loading the catalog *)

Module LoaderFacts.
Import Py More.

Section Loading.
Variable locate : string -> string.
Variable isfile : string -> bool.
Variable csv_rows : string -> list (list string).
Variable float : string -> option Q.

Lemma read_rows_loaded (rows : list (list string)) :
  forall us ws strings weights,
    read_rows float rows us ws = Loaded (strings, weights) ->
    exists more,
      strings = (us ++ map first_field rows)%list
      /\ weights = (ws ++ more)%list
      /\ map float (map second_field rows) = map Some more
      /\ forallb (good_row float) rows = true.
Proof.
  induction rows as [|row rows IH]; intros us ws strings weights H; cbn [read_rows] in H.
  - injection H as <- <-. exists []. now rewrite !app_nil_r.
  - destruct row as [|ua [|weight [|extra row]]]; try discriminate H.
    destruct (float weight) as [x|] eqn:Hx; [|discriminate H].
    apply IH in H. destruct H as (more & -> & -> & Hmore & Hgood).
    exists (x :: more). cbn [map first_field second_field hd tl forallb good_row].
    rewrite Hx, Hmore, Hgood, <- !app_assoc. auto.
Qed.

Lemma read_rows_good (rows : list (list string)) :
  forall us ws,
    forallb (good_row float) rows = true ->
    exists catalog, read_rows float rows us ws = Loaded catalog.
Proof.
  induction rows as [|row rows IH]; intros us ws H; cbn [read_rows].
  - eauto.
  - cbn [forallb] in H. apply andb_true_iff in H. destruct H as [Hrow Hrows].
    destruct row as [|ua [|weight [|extra row]]]; try discriminate Hrow.
    cbn [good_row] in Hrow. destruct (float weight); [|discriminate Hrow].
    now apply IH.
Qed.

(** X22.  When [get_user_agents] returns, the file had one row of
    two fields per entry: the strings are the first fields of the
    rows, in their order, the weights are the second fields
    converted by [float], and the two lists have the same length,
    the number of rows. *)
Theorem get_user_agents_loaded (filename : string)
        (strings : list string) (weights : list Q) :
  get_user_agents locate isfile csv_rows float filename = Loaded (strings, weights) ->
  let rows := csv_rows (locate filename) in
  strings = map first_field rows
  /\ map Some weights = map float (map second_field rows)
  /\ List.length strings = List.length rows
  /\ List.length weights = List.length rows.
Proof.
  intros H rows. unfold get_user_agents in H. fold rows in H.
  destruct (negb (endswith filename ".tsv")); [discriminate H|].
  destruct (negb (isfile (locate filename))); [discriminate H|].
  apply read_rows_loaded in H. destruct H as (more & -> & -> & Hmore & _).
  cbn [app]. repeat split.
  - now symmetry.
  - now rewrite length_map.
  - apply (f_equal (@List.length _)) in Hmore. now rewrite !length_map in Hmore.
Qed.

(** X23.  When [get_user_agents] returns, the name ends in [.tsv],
    the file exists and every row of it has two fields of which
    [float] accepts the second: no row was skipped. *)
Theorem get_user_agents_returns_only_if (filename : string)
        (strings : list string) (weights : list Q) :
  get_user_agents locate isfile csv_rows float filename = Loaded (strings, weights) ->
  endswith filename ".tsv" = true
  /\ isfile (locate filename) = true
  /\ forallb (good_row float) (csv_rows (locate filename)) = true.
Proof.
  unfold get_user_agents. intros H.
  destruct (endswith filename ".tsv"); [|discriminate H].
  destruct (isfile (locate filename)); [|discriminate H].
  cbn [negb] in H. apply read_rows_loaded in H.
  destruct H as (more & _ & _ & _ & Hgood). auto.
Qed.

Lemma read_rows_first_bad (good rest : list (list string)) (bad : list string) :
  forallb (good_row float) good = true ->
  forall us ws,
    (List.length bad <> 2 ->
     read_rows float (good ++ bad :: rest) us ws = AssertionError)
    /\ (forall ua weight, bad = [ua; weight] -> float weight = None ->
        read_rows float (good ++ bad :: rest) us ws = FloatError weight).
Proof.
  induction good as [|row good IH]; intros Hgood us ws.
  - cbn [app read_rows]. split.
    + intros Hlen. destruct bad as [|ua [|weight [|extra bad]]]; try reflexivity.
      exfalso. apply Hlen. reflexivity.
    + intros ua weight Hbad Hfloat. rewrite Hbad. now rewrite Hfloat.
  - cbn [forallb] in Hgood. apply andb_true_iff in Hgood. destruct Hgood as [Hrow Hgood].
    destruct row as [|ua [|weight [|extra row]]]; try discriminate Hrow.
    cbn [good_row] in Hrow. cbn [app read_rows].
    destruct (float weight); [|discriminate Hrow].
    now apply IH.
Qed.

(** X24.  The first row that does not fit decides how
    [get_user_agents] fails: [AssertionError] for a row that has not
    two fields, the [ValueError] of [float] for a second field that
    is no number; the rows after it are not looked at. *)
Theorem get_user_agents_first_bad_row (filename : string)
        (good rest : list (list string)) (bad : list string) :
  endswith filename ".tsv" = true ->
  isfile (locate filename) = true ->
  csv_rows (locate filename) = (good ++ bad :: rest)%list ->
  forallb (good_row float) good = true ->
  (List.length bad <> 2 ->
   get_user_agents locate isfile csv_rows float filename = AssertionError)
  /\ (forall ua weight, bad = [ua; weight] -> float weight = None ->
      get_user_agents locate isfile csv_rows float filename = FloatError weight).
Proof.
  intros Hname Hfile Hrows Hgood. unfold get_user_agents.
  rewrite Hname, Hfile, Hrows. cbn [negb].
  now apply read_rows_first_bad.
Qed.
End Loading.

End LoaderFacts.

(** ** More runs in the small world *)

Module MoreRuns.
Import Py PyStr Requests Scraping More.
Import Reference.

Lemma process_text_around_character_witness :
  Text._process_text ("one" ++ nls 3 ++ String "t"%char ("wo" ++ nls 2))
  = Text._process_text ("one" ++ nls 3) ++ String "t"%char (Text._process_text ("wo" ++ nls 2)).
Proof.
  apply (TextMore.process_text_around_character ("one" ++ nls 3) ("wo" ++ nls 2) "t"%char).
  discriminate.
Defined.


Lemma init_without_randomness_witness :
  RequestsScraper.__init__ (E := externals)
    (with_flags false false
       (with_identity (Some "MyAgent/1.0") (Some "800,600")
          (with_proxy (Some "127.0.0.1:8080") default_args)))
    world0
  = (Ok {| user_agent := Some "MyAgent/1.0";
           screen_resolution := Some "800,600";
           random_user_agent_flag := false;
           random_screen_resolution_flag := false;
           bs4_parser := "html.parser";
           proxy := Some "127.0.0.1:8080";
           web_driver := None;
           sub := tt |}, world0).
Proof.
  apply (SessionMore.init_without_randomness
           (E := externals)
           (with_flags false false
              (with_identity (Some "MyAgent/1.0") (Some "800,600")
                 (with_proxy (Some "127.0.0.1:8080") default_args)))
           world0).
  - intros p Hp. injection Hp as <-. right. reflexivity.
  - reflexivity.
  - reflexivity.
Defined.

Lemma refresh_user_agent_sets_catalog_entry_witness :
  exists ua,
    In ua user_agents
    /\ snd (refresh_user_agent (E := externals) (requests_scraper, world0))
       = (set_user_agent (Some ua) requests_scraper,
          World.emit (World.Logged ("current user agent: " ++ ua))
                     (World.with_rng world0 (PyRandom.advance (World.rng world0)))).
Proof.
  apply (SessionMore.refresh_user_agent_sets_catalog_entry
           (E := externals) requests_scraper world0
           (snd (refresh_user_agent (E := externals) (requests_scraper, world0)))).
  reflexivity.
Defined.

Lemma refresh_user_agent_raises_witness :
  refresh_user_agent (E := empty_catalog) (requests_scraper, world0)
  = (Raise (IndexError "list index out of range"), (requests_scraper, world0)).
Proof.
  destruct (SessionMore.refresh_user_agent_raises (E := empty_catalog) requests_scraper world0)
    as (_ & H & _).
  apply H; reflexivity.
Defined.

Lemma selenium_init_invalid_browser_witness :
  fst (SeleniumScraper.__init__ (E := externals) default_args "Safari" [] world0)
  = Raise (ValueError ("Invalid browser: 'safari'! " ++ String LF
                       "Valid browsers values are: 'chrome' or 'firefox'!")).
Proof.
  rewrite (SessionMore.selenium_init_invalid_browser
             (E := externals) default_args "Safari" [] world0
             (snd (BaseScraper.__init__ (E := externals) (D := Browser) default_args world0))
             base_for_browser).
  - reflexivity.
  - reflexivity.
  - reflexivity.
  - discriminate.
  - discriminate.
Defined.

Lemma selenium_init_options_witness :
  SeleniumScraper.browser (sub selenium_scraper) = Bs4.strip (Bs4.lower " Chrome ")
  /\ (SeleniumScraper.browser (sub selenium_scraper) = "chrome"
      \/ SeleniumScraper.browser (sub selenium_scraper) = "firefox")
  /\ SeleniumScraper.options (sub selenium_scraper)
     = (SeleniumScraper.default_options
        ++ SeleniumScraper.option_if (screen_resolution selenium_scraper) "--window-size="
        ++ SeleniumScraper.option_if (user_agent selenium_scraper) "--user-agent="
        ++ SeleniumScraper.option_if (proxy selenium_scraper) "--proxy-server=")%list.
Proof.
  apply (SessionMore.selenium_init_options
           (E := externals) default_args " Chrome " SeleniumScraper.default_options world0
           (snd (BaseScraper.__init__ (E := externals) (D := Browser) default_args world0))
           selenium_scraper).
  - reflexivity.
  - reflexivity.
Defined.

Lemma requests_retrieve_html_error_status_witness :
  fst (RequestsScraper.retrieve_html (E := externals) (site ++ "missing") 1 false []
                                     (requests_started, world0))
  = Raise (HTTPError 404).
Proof.
  rewrite (FetchMore.requests_retrieve_html_error_status
             (E := externals) requests_started world0 session0 session0
             (site ++ "missing") 1 false [] (serve (site ++ "missing"))
             eq_refl eq_refl eq_refl).
  - reflexivity.
  - change (400 <= 404 < 600)%Z. lia.
Defined.

Lemma requests_retrieve_html_has_markup_witness :
  exists html,
    fst (RequestsScraper.retrieve_html (E := externals) site 1 false []
                                       (requests_started, world0)) = Ok (Some html)
    /\ (Spec.Substring "<html>" html \/ Spec.Substring "<body" html).
Proof.
  apply (FetchMore.requests_retrieve_html_has_markup
           (E := externals) requests_started world0 session0 session0
           site 1 false [] (serve site)); reflexivity.
Defined.

Lemma requests_retrieve_html_passes_check_witness :
  exists returned,
    fst (RequestsScraper.retrieve_html (E := externals) (site ++ "plain") 1 false []
                                       (requests_started, world0)) = Ok returned
    /\ check_html_source returned = true.
Proof.
  apply (FetchMore.requests_retrieve_html_passes_check
           (E := externals) requests_started world0 session0 session0
           (site ++ "plain") 1 false [] (serve (site ++ "plain"))); reflexivity.
Defined.


Lemma quit_drops_handle_on_success_witness :
  fst (RequestsScraper.quit (E := offline) (requests_started, world0)) = Ok tt
  <-> web_driver (fst (snd (RequestsScraper.quit (E := offline) (requests_started, world0))))
      = None.
Proof.
  destruct (FetchMore.quit_drops_handle_on_success (E := offline)) as [H _].
  apply (H requests_started
           (fst (snd (RequestsScraper.quit (E := offline) (requests_started, world0))))
           world0
           (snd (snd (RequestsScraper.quit (E := offline) (requests_started, world0))))
           session0).
  - reflexivity.
  - reflexivity.
Defined.

Lemma requests_start_quit_round_trip_witness :
  RequestsScraper.quit (E := externals)
    (snd (RequestsScraper.start (E := externals) (requests_scraper, world0)))
  = (Ok tt, (requests_scraper, world0)).
Proof.
  apply (FetchMore.requests_start_quit_round_trip (E := externals) requests_scraper world0).
  - reflexivity.
  - intros session. reflexivity.
Defined.


Lemma selenium_retrieve_html_navigation_fails_witness :
  SeleniumScraper.retrieve_html (E := offline) site 1 false [] (offline_started, world0)
  = (Raise (ExternalError "net::ERR_NAME_NOT_RESOLVED"),
     (set_web_driver (Some blank_browser) offline_started,
      World.emit (World.Slept 1) world0)).
Proof.
  apply (FetchMore.selenium_retrieve_html_navigation_fails
           (E := offline) offline_started world0 blank_browser blank_browser
           site 1 false []); reflexivity.
Defined.

Lemma get_user_agents_loaded_witness :
  let rows := sample_rows (sample_locate MOST_COMMON_USER_AGENTS_FILENAME) in
  ["Mozilla/5.0 (X11; Linux x86_64)"; "Mozilla/5.0 (Windows NT 10.0; Win64; x64)"]
  = map first_field rows
  /\ map Some [(1 # 2)%Q; 1%Q] = map sample_float (map second_field rows)
  /\ List.length ["Mozilla/5.0 (X11; Linux x86_64)"; "Mozilla/5.0 (Windows NT 10.0; Win64; x64)"]
     = List.length rows
  /\ List.length [(1 # 2)%Q; 1%Q] = List.length rows.
Proof.
  apply (LoaderFacts.get_user_agents_loaded
           sample_locate sample_isfile sample_rows sample_float
           MOST_COMMON_USER_AGENTS_FILENAME).
  reflexivity.
Defined.

Lemma get_user_agents_returns_only_if_witness :
  endswith MOST_COMMON_USER_AGENTS_FILENAME ".tsv" = true
  /\ sample_isfile (sample_locate MOST_COMMON_USER_AGENTS_FILENAME) = true
  /\ forallb (good_row sample_float)
             (sample_rows (sample_locate MOST_COMMON_USER_AGENTS_FILENAME)) = true.
Proof.
  apply (LoaderFacts.get_user_agents_returns_only_if
           sample_locate sample_isfile sample_rows sample_float
           MOST_COMMON_USER_AGENTS_FILENAME
           ["Mozilla/5.0 (X11; Linux x86_64)"; "Mozilla/5.0 (Windows NT 10.0; Win64; x64)"]
           [(1 # 2)%Q; 1%Q]).
  reflexivity.
Defined.

Lemma get_user_agents_first_bad_row_witness :
  get_user_agents sample_locate sample_isfile broken_rows sample_float
                  MOST_COMMON_USER_AGENTS_FILENAME
  = AssertionError.
Proof.
  destruct (LoaderFacts.get_user_agents_first_bad_row
              sample_locate sample_isfile broken_rows sample_float
              MOST_COMMON_USER_AGENTS_FILENAME
              [["Mozilla/5.0 (X11; Linux x86_64)"; "0.5"]]
              [["Mozilla/5.0 (Macintosh; Intel Mac OS X 10_15_7)"; "1"]]
              ["Mozilla/5.0 (Windows NT 10.0; Win64; x64)"]
              eq_refl eq_refl eq_refl eq_refl) as [H _].
  apply H. discriminate.
Defined.

End MoreRuns.
